(** * clatd.c: tun interface setup and main event loop

    A shallow embedding of [clatd.c] in a small state-and-exit monad.
    Every external call that acts on the outside world (logging, route and
    address changes, writes, privilege changes, the translator hand-off) is
    recorded in a trace; every external call that only returns information
    (read, poll, time, the uplink queries, the return codes of the acting
    calls) is an explicit input of the function that makes the call.

    C integers are modelled in Z.  The arithmetic of clatd.c is
    [mtu - MTU_DELTA] on an mtu of at least 1280, [readlen - header_size] on
    a readlen of at least header_size, and [now - INTERFACE_POLL_FREQUENCY]
    on a time: none of them leaves the range of its C type. *)

From Stdlib Require Import ZArith List String Ascii Bool Lia.
Import ListNotations.
Local Open Scope string_scope.
Local Open Scope list_scope.
Local Open Scope Z_scope.

(** ** Constants of the system headers *)

(* linux/if_ether.h *)
Definition ETH_P_IP : Z := 0x0800.
Definition ETH_P_IPV6 : Z := 0x86DD.
(* sys/socket.h *)
Definition AF_INET : Z := 2.
Definition AF_INET6 : Z := 10.
(* poll.h, errno.h *)
Definition POLLIN : Z := 1.
Definition EINTR : Z := 4.
(* linux/capability.h, linux/prctl.h *)
Definition CAP_NET_ADMIN : Z := 12.
Definition _LINUX_CAPABILITY_VERSION : Z := 0x19980330.
Definition PR_SET_KEEPCAPS : Z := 8.
(* linux/if_tun.h: struct tun_pi { __u16 flags; __be16 proto; } *)
Definition sizeof_tun_pi : Z := 4.

(* the character written '\n' in the C source *)
Definition LF : string := String (ascii_of_nat 10) EmptyString.

(* clatd.c *)
Definition DEVICENAME6 : string := "clat".
Definition DEVICENAME4 : string := "clat4".
(* 40 bytes IPv6 header - 20 bytes IPv4 header + 8 bytes fragment header *)
Definition MTU_DELTA : Z := 28.

(** ** Data *)

Inductive log_priority := ANDROID_LOG_INFO | ANDROID_LOG_WARN | ANDROID_LOG_FATAL.

(* setroute.h *)
Inductive route_op := ROUTE_DELETE | ROUTE_CREATE.

(* struct in6_addr, as its four 32-bit words (s6_addr32) *)
Record in6_addr := mk_in6 { w0 : Z; w1 : Z; w2 : Z; w3 : Z }.

Definition IN6_ARE_ADDR_EQUAL (a b : in6_addr) : bool :=
  (w0 a =? w0 b) && (w1 a =? w1 b) && (w2 a =? w2 b) && (w3 a =? w3 b).

(* struct tun_data (clatd.h) *)
Record tun_data := mk_tun {
  device6 : string;
  device4 : string;
  read_fd6 : Z;
  fd4 : Z;
  write_fd6 : Z
}.

(* struct clat_config (config.h): the fields clatd.c reads or writes *)
Record clat_config := mk_config {
  mtu : Z;
  ipv4mtu : Z;
  ipv6_local_subnet : in6_addr;
  ipv6_local_address : in6_addr;
  ipv4_local_subnet : Z;
  default_pdp_interface : string
}.

Definition set_mtu (v : Z) (c : clat_config) : clat_config :=
  mk_config v (ipv4mtu c) (ipv6_local_subnet c) (ipv6_local_address c)
            (ipv4_local_subnet c) (default_pdp_interface c).

Definition set_ipv4mtu (v : Z) (c : clat_config) : clat_config :=
  mk_config (mtu c) v (ipv6_local_subnet c) (ipv6_local_address c)
            (ipv4_local_subnet c) (default_pdp_interface c).

Definition set_ipv6_local_subnet (a : in6_addr) (c : clat_config) : clat_config :=
  mk_config (mtu c) (ipv4mtu c) a (ipv6_local_address c)
            (ipv4_local_subnet c) (default_pdp_interface c).

(* an address argument of add_address: union anyip *)
Inductive anyip := Ip4 (a : Z) | Ip6 (a : in6_addr).

(** The calls that act on the outside world. *)
Inductive event :=
| EvLog (prio : log_priority) (fmt : string)
| EvPrintf (s : string)
| EvOpen (path : string)
| EvSocketRaw6
| EvSetsockoptChecksumOff (sock : Z)
| EvClose (fd : Z)
| EvTunSetIff (fd : Z) (name : string)
| EvWrite (fd : Z) (data : string)
| EvSetgroups (groups : list Z)
| EvPrctl (opt : Z) (arg : Z)
| EvSetgid (gid : Z)
| EvSetuid (uid : Z)
| EvCapset (version pid effective permitted inheritable : Z)
| EvUnsetenv (name : string)
| EvSignalTerm
| EvIfRoute (dev : string) (family : Z) (dest : in6_addr) (cidr : Z)
            (gateway : option in6_addr) (metric mtu_ : Z) (op : route_op)
| EvAddAddress (dev : string) (family : Z) (addr : anyip) (prefixlen : Z)
               (broadcast : option anyip)
| EvIfUp (dev : string) (mtu_ : Z)
| EvTranslate (fd : Z) (to_ipv6 : bool) (packet : list Byte.byte) (packetsize : Z).

(** The process: the two globals of clatd.c, the global configuration and
    the trace of what it has done so far (latest event last). *)
Record proc := mk_proc {
  forwarding_fd : Z;
  running : Z;
  Global_Clatd_Config : clat_config;
  trace : list event
}.

(* int forwarding_fd = -1; volatile sig_atomic_t running = 1; *)
Definition initial_proc (c : clat_config) : proc := mk_proc (-1) 1 c [].

(** ** The monad: state, exit(), and running out of inputs *)

Inductive outcome (A : Type) :=
| Done (a : A)
| Exited (status : Z)
| StillRunning.
Arguments Done {A} a.
Arguments Exited {A} status.
Arguments StillRunning {A}.

Definition M (A : Type) : Type := proc -> outcome A * proc.

Definition ret {A} (a : A) : M A := fun s => (Done a, s).

Definition bind {A B} (m : M A) (k : A -> M B) : M B :=
  fun s =>
    match m s with
    | (Done a, s') => k a s'
    | (Exited c, s') => (Exited c, s')
    | (StillRunning, s') => (StillRunning, s')
    end.

Notation "x <- c1 ;; c2" := (bind c1 (fun x => c2))
  (at level 61, c1 at next level, right associativity).
Notation "c1 ;; c2" := (bind c1 (fun _ => c2))
  (at level 61, right associativity).

Definition exit {A} (status : Z) : M A := fun s => (Exited status, s).

Definition emit (e : event) : M unit :=
  fun s => (Done tt, mk_proc (forwarding_fd s) (running s) (Global_Clatd_Config s)
                             (trace s ++ [e])).

Definition get_config : M clat_config := fun s => (Done (Global_Clatd_Config s), s).

Definition put_config (c : clat_config) : M unit :=
  fun s => (Done tt, mk_proc (forwarding_fd s) (running s) c (trace s)).

Definition set_running (v : Z) : M unit :=
  fun s => (Done tt, mk_proc (forwarding_fd s) v (Global_Clatd_Config s) (trace s)).

Definition set_forwarding_fd (v : Z) : M unit :=
  fun s => (Done tt, mk_proc v (running s) (Global_Clatd_Config s) (trace s)).

Definition get_forwarding_fd : M Z := fun s => (Done (forwarding_fd s), s).

Definition when (b : bool) (m : M unit) : M unit := if b then m else ret tt.

Definition logmsg (prio : log_priority) (fmt : string) : M unit := emit (EvLog prio fmt).

(** ** read_packet *)

(* what read(fd, packet, PACKETLEN) returns: -1, or the bytes of one frame *)
Inductive read_result :=
| ReadError (errno : Z)
| ReadBytes (data : list Byte.byte).

Definition read_len (r : read_result) : Z :=
  match r with
  | ReadError _ => -1
  | ReadBytes d => Z.of_nat (List.length d)
  end.

(* the buffer after memset and read: the frame, and zeros behind it, which
   byte_at supplies *)
Definition read_buf (r : read_result) : list Byte.byte :=
  match r with
  | ReadError _ => []
  | ReadBytes d => d
  end.

Definition byte_at (packet : list Byte.byte) (i : nat) : Z :=
  Z.of_N (Byte.to_N (nth i packet Byte.x00)).

(* a 16-bit field as the (little-endian) host loads it *)
Definition load_u16 (packet : list Byte.byte) (off : nat) : Z :=
  Z.lor (byte_at packet off) (Z.shiftl (byte_at packet (S off)) 8).

Definition tun_pi_flags (packet : list Byte.byte) : Z := load_u16 packet 0.
Definition tun_pi_proto (packet : list Byte.byte) : Z := load_u16 packet 2.

(* ntohs on that host: the two bytes swapped *)
Definition ntohs (x : Z) : Z :=
  Z.lor (Z.shiftl (Z.land x 0xff) 8) (Z.land (Z.shiftr x 8) 0xff).

(* translate.h: the translator itself is outside clatd.c *)
Definition translate_packet (fd : Z) (to_ipv6 : bool) (packet : list Byte.byte)
    (packetsize : Z) : M unit :=
  emit (EvTranslate fd to_ipv6 packet packetsize).

Definition read_packet (active_fd : Z) (tunnel : tun_data) (read : Z -> read_result)
    : M unit :=
  let r := read active_fd in
  let packet := read_buf r in
  let readlen := read_len r in
  if readlen <? 0 then
    logmsg ANDROID_LOG_WARN "read_packet/read error: %s"
  else if readlen =? 0 then
    logmsg ANDROID_LOG_WARN "read_packet/tun interface removed" ;;
    set_running 0
  else
    let header_size := sizeof_tun_pi in
    if readlen <? header_size then
      logmsg ANDROID_LOG_WARN "read_packet/short read: got %ld bytes"
    else
      when (negb (tun_pi_flags packet =? 0))
           (logmsg ANDROID_LOG_WARN "%s: unexpected flags = %d") ;;
      let proto := ntohs (tun_pi_proto packet) in
      match (if proto =? ETH_P_IP then Some (write_fd6 tunnel)
             else if proto =? ETH_P_IPV6 then Some (fd4 tunnel)
             else None) with
      | None => logmsg ANDROID_LOG_WARN "%s: unknown packet type = 0x%x"
      | Some fd =>
          translate_packet fd (proto =? ETH_P_IP)
                           (skipn (Z.to_nat header_size) packet) (readlen - header_size)
      end.

(** ** What the files outside clatd.c provide

    Constants of headers that are not part of clatd.c, and one function of
    config.c that interface_poll calls. *)

Class ClatdHeaders := {
  (* clatd.h *)
  MAXMTU : Z;
  INTERFACE_POLL_FREQUENCY : Z;
  (* resolv_netid.h *)
  NETID_UNSET : Z;
  (* private/android_filesystem_config.h *)
  AID_INET : Z;
  AID_CLAT : Z;
  (* config.c: rewrites the address it is given into the local subnet address *)
  config_generate_local_ipv6_subnet : clat_config -> in6_addr -> in6_addr
}.

Section Daemon.
Context {hdr : ClatdHeaders}.

(** ** set_forwarding, stop_loop *)

Definition set_forwarding (fd : Z) (setting : string) (write_ret : Z) : M unit :=
  emit (EvWrite fd setting) ;;
  if write_ret <? 0 then
    logmsg ANDROID_LOG_FATAL "set_forwarding(%s) failed: %s" ;;
    exit 1
  else ret tt.

Definition stop_loop : M unit := set_running 0.

(** ** tun_open, tun_alloc *)

Definition tun_open (opens : Z * Z) : M Z :=
  emit (EvOpen "/dev/tun") ;;
  let fd := fst opens in
  if fd <? 0 then
    emit (EvOpen "/dev/net/tun") ;;
    ret (snd opens)
  else ret fd.

(* strncpy into ifr_name and the terminating zero at IFNAMSIZ-1 *)
Definition IFNAMSIZ : nat := 16.
Definition ifr_name_of (dev : string) : string := substring 0 (IFNAMSIZ - 1) dev.

(* ioctl(TUNSETIFF) returns its status and the name the kernel chose *)
Definition tun_alloc (dev : string) (fd : Z) (ioctl : Z * string) : M (Z * string) :=
  emit (EvTunSetIff fd (ifr_name_of dev)) ;;
  let err := fst ioctl in
  if err <? 0 then
    emit (EvClose fd) ;;
    ret (err, dev)
  else ret (0, snd ioctl).

(** ** The /128 route of the local subnet *)

Definition deconfigure_tun_ipv6 (tunnel : tun_data) (status : Z) : M unit :=
  c <- get_config ;;
  emit (EvIfRoute (device6 tunnel) AF_INET6 (ipv6_local_subnet c) 128 None 1 0
                  ROUTE_DELETE) ;;
  when (status <? 0)
       (logmsg ANDROID_LOG_WARN "deconfigure_tun_ipv6/if_route(6) failed: %s").

Definition configure_tun_ipv6 (tunnel : tun_data) (status : Z) : M unit :=
  c <- get_config ;;
  emit (EvIfRoute (device6 tunnel) AF_INET6 (ipv6_local_subnet c) 128 None 1 0
                  ROUTE_CREATE) ;;
  if status <? 0 then
    logmsg ANDROID_LOG_FATAL "configure_tun_ipv6/if_route(6) failed: %s" ;;
    exit 1
  else ret tt.

(** ** interface_poll *)

Record uplink_state := mk_uplink {
  (* getinterface_ip(default_pdp_interface, AF_INET6): NULL or an address *)
  up_interface_ip : option in6_addr;
  (* if_route(ROUTE_DELETE) and if_route(ROUTE_CREATE) *)
  up_delete_status : Z;
  up_create_status : Z
}.

Definition interface_poll (tunnel : tun_data) (up : uplink_state) : M unit :=
  match up_interface_ip up with
  | None =>
      logmsg ANDROID_LOG_WARN "unable to find an ipv6 ip on interface %s"
  | Some ip6 =>
      c <- get_config ;;
      let ip6 := config_generate_local_ipv6_subnet c ip6 in
      if negb (IN6_ARE_ADDR_EQUAL ip6 (ipv6_local_subnet c)) then
        logmsg ANDROID_LOG_WARN "clat subnet changed from %s to %s" ;;
        (* remove old route *)
        deconfigure_tun_ipv6 tunnel (up_delete_status up) ;;
        (* add new route, start translating packets to the new prefix *)
        c <- get_config ;;
        put_config (set_ipv6_local_subnet ip6 c) ;;
        configure_tun_ipv6 tunnel (up_create_status up)
      else ret tt
  end.

(** ** configure_tun_ip *)

Record tun_ip_status := mk_tun_ip {
  ti_add_address4 : Z;
  ti_add_address6 : Z;
  ti_if_up6 : Z;
  ti_if_up4 : Z;
  ti_route : Z
}.

Definition configure_tun_ip (tunnel : tun_data) (st : tun_ip_status) : M unit :=
  c <- get_config ;;
  emit (EvAddAddress (device4 tunnel) AF_INET (Ip4 (ipv4_local_subnet c)) 32
                     (Some (Ip4 (ipv4_local_subnet c)))) ;;
  (if ti_add_address4 st <? 0 then
     logmsg ANDROID_LOG_FATAL "configure_tun_ip/if_address(4) failed: %s" ;; exit 1
   else ret tt) ;;
  emit (EvAddAddress (device6 tunnel) AF_INET6 (Ip6 (ipv6_local_address c)) 64 None) ;;
  (if ti_add_address6 st <? 0 then
     logmsg ANDROID_LOG_FATAL "configure_tun_ip/if_address(6) failed: %s" ;; exit 1
   else ret tt) ;;
  emit (EvIfUp (device6 tunnel) (mtu c)) ;;
  (if ti_if_up6 st <? 0 then
     logmsg ANDROID_LOG_FATAL "configure_tun_ip/if_up(6) failed: %s" ;; exit 1
   else ret tt) ;;
  emit (EvIfUp (device4 tunnel) (ipv4mtu c)) ;;
  (if ti_if_up4 st <? 0 then
     logmsg ANDROID_LOG_FATAL "configure_tun_ip/if_up(4) failed: %s" ;; exit 1
   else ret tt) ;;
  configure_tun_ipv6 tunnel (ti_route st).

(** ** drop_root *)

Record drop_root_status := mk_drop {
  dr_setgroups : Z;
  dr_prctl : Z;
  dr_setgid : Z;
  dr_setuid : Z;
  dr_capset : Z
}.

Definition drop_root (st : drop_root_status) : M unit :=
  let groups := [AID_INET] in
  emit (EvSetgroups groups) ;;
  (if dr_setgroups st <? 0 then
     logmsg ANDROID_LOG_FATAL "drop_root/setgroups failed: %s" ;; exit 1
   else ret tt) ;;
  emit (EvPrctl PR_SET_KEEPCAPS 1) ;;
  emit (EvSetgid AID_CLAT) ;;
  (if dr_setgid st <? 0 then
     logmsg ANDROID_LOG_FATAL "drop_root/setgid failed: %s" ;; exit 1
   else ret tt) ;;
  emit (EvSetuid AID_CLAT) ;;
  (if dr_setuid st <? 0 then
     logmsg ANDROID_LOG_FATAL "drop_root/setuid failed: %s" ;; exit 1
   else ret tt) ;;
  (* header.pid = 0: change myself; cap.inheritable stays 0 from the memset *)
  let cap := Z.shiftl 1 CAP_NET_ADMIN in
  emit (EvCapset _LINUX_CAPABILITY_VERSION 0 cap cap 0) ;;
  (if dr_capset st <? 0 then
     logmsg ANDROID_LOG_FATAL "drop_root/capset failed: %s" ;; exit 1
   else ret tt).

(** ** open_raw_socket *)

Definition set_write_fd6 (v : Z) (t : tun_data) : tun_data :=
  mk_tun (device6 t) (device4 t) (read_fd6 t) (fd4 t) v.

Definition open_raw_socket (tunnel : tun_data) (socket_ret setsockopt_ret : Z)
    : M tun_data :=
  emit EvSocketRaw6 ;;
  let rawsock := socket_ret in
  (if rawsock <? 0 then
     logmsg ANDROID_LOG_FATAL "raw socket failed: %s" ;; exit 1
   else ret tt) ;;
  emit (EvSetsockoptChecksumOff rawsock) ;;
  when (setsockopt_ret <? 0)
       (logmsg ANDROID_LOG_WARN "could not disable checksum on raw socket: %s") ;;
  ret (set_write_fd6 rawsock tunnel).

(** ** configure_interface *)

Record configure_inputs := mk_configure_inputs {
  (* read_config: its return value, and Global_Clatd_Config as it leaves it *)
  ci_read_config : Z;
  ci_loaded : clat_config;
  (* getifmtu(default_pdp_interface) *)
  ci_getifmtu : Z;
  (* ioctl(TUNSETIFF) on read_fd6 and on fd4 *)
  ci_ioctl6 : Z * string;
  ci_ioctl4 : Z * string;
  ci_tun_ip : tun_ip_status
}.

Definition set_device6 (v : string) (t : tun_data) : tun_data :=
  mk_tun v (device4 t) (read_fd6 t) (fd4 t) (write_fd6 t).

Definition set_device4 (v : string) (t : tun_data) : tun_data :=
  mk_tun (device6 t) v (read_fd6 t) (fd4 t) (write_fd6 t).

Definition configure_interface (uplink_interface : string) (plat_prefix : option string)
    (tunnel : tun_data) (net_id : Z) (inp : configure_inputs) : M tun_data :=
  put_config (ci_loaded inp) ;;
  (if ci_read_config inp =? 0 then
     logmsg ANDROID_LOG_FATAL "read_config failed" ;; exit 1
   else ret tt) ;;

  c <- get_config ;;
  (if mtu c >? MAXMTU then
     logmsg ANDROID_LOG_WARN "Max MTU is %d, requested %d" ;;
     put_config (set_mtu MAXMTU c)
   else ret tt) ;;
  c <- get_config ;;
  (if mtu c <=? 0 then
     put_config (set_mtu (ci_getifmtu inp) c) ;;
     logmsg ANDROID_LOG_WARN "ifmtu=%d"
   else ret tt) ;;
  c <- get_config ;;
  (if mtu c <? 1280 then
     logmsg ANDROID_LOG_WARN "mtu too small = %d" ;;
     put_config (set_mtu 1280 c)
   else ret tt) ;;

  c <- get_config ;;
  (if (ipv4mtu c <=? 0) || (ipv4mtu c >? mtu c - MTU_DELTA) then
     put_config (set_ipv4mtu (mtu c - MTU_DELTA) c) ;;
     logmsg ANDROID_LOG_WARN "ipv4mtu now set to = %d"
   else ret tt) ;;

  a6 <- tun_alloc (device6 tunnel) (read_fd6 tunnel) (ci_ioctl6 inp) ;;
  let tunnel := set_device6 (snd a6) tunnel in
  (if fst a6 <? 0 then
     logmsg ANDROID_LOG_FATAL "tun_alloc failed: %s" ;; exit 1
   else ret tt) ;;

  a4 <- tun_alloc (device4 tunnel) (fd4 tunnel) (ci_ioctl4 inp) ;;
  let tunnel := set_device4 (snd a4) tunnel in
  (if fst a4 <? 0 then
     logmsg ANDROID_LOG_FATAL "tun_alloc/4 failed: %s" ;; exit 1
   else ret tt) ;;

  configure_tun_ip tunnel (ci_tun_ip inp) ;;
  ret tunnel.

(** ** event_loop *)

(** What the outside world answers during one pass of the loop. *)
Record iteration := mk_iteration {
  (* SIGTERM arrives while the process waits in poll: stop_loop runs *)
  it_sigterm : bool;
  (* poll: return value, errno, wait_fd[0].revents and wait_fd[1].revents *)
  it_poll : Z;
  it_errno : Z;
  it_revents : Z * Z;
  (* read on a descriptor *)
  it_read : Z -> read_result;
  (* time(NULL) after the reads *)
  it_now : Z;
  (* the uplink, should interface_poll run *)
  it_uplink : uplink_state
}.

Fixpoint for_each {A} (l : list A) (body : A -> M unit) : M unit :=
  match l with
  | [] => ret tt
  | x :: l' => body x ;; for_each l' body
  end.

Definition loop_body (tunnel : tun_data) (last_interface_poll : Z) (it : iteration) : M Z :=
  when (it_sigterm it) stop_loop ;;
  (if it_poll it =? -1 then
     when (negb (it_errno it =? EINTR))
          (logmsg ANDROID_LOG_WARN "event_loop/poll returned an error: %s")
   else
     let wait_fd := [(read_fd6 tunnel, fst (it_revents it));
                     (fd4 tunnel, snd (it_revents it))] in
     for_each wait_fd (fun w =>
       when (negb (Z.land (snd w) POLLIN =? 0))
            (read_packet (fst w) tunnel (it_read it)))) ;;
  let now := it_now it in
  if last_interface_poll <? now - INTERFACE_POLL_FREQUENCY then
    interface_poll tunnel (it_uplink it) ;;
    ret now
  else ret last_interface_poll.

Fixpoint event_loop_from (tunnel : tun_data) (last_interface_poll : Z)
    (script : list iteration) : M unit :=
  fun s =>
    if running s =? 0 then (Done tt, s)
    else
      match script with
      | [] => (StillRunning, s)
      | it :: rest =>
          (last <- loop_body tunnel last_interface_poll it ;;
           event_loop_from tunnel last rest) s
      end.

(* start the poll timer: time0 is what time(NULL) returns on entry *)
Definition event_loop (tunnel : tun_data) (time0 : Z) (script : list iteration) : M unit :=
  event_loop_from tunnel time0 script.

(** ** print_help, main *)

Definition print_help : M unit :=
  emit (EvPrintf ("android-clat arguments:" ++ LF)%string) ;;
  emit (EvPrintf ("-i [uplink interface]" ++ LF)%string) ;;
  emit (EvPrintf ("-p [plat prefix]" ++ LF)%string) ;;
  emit (EvPrintf ("-n [NetId]" ++ LF)%string).

Record options := mk_options {
  opt_uplink_interface : option string;
  opt_plat_prefix : option string;
  opt_net_id_str : option string
}.

(* the while loop over getopt(argc, argv, "i:p:n:h"): each element is an
   option character with its optarg *)
Fixpoint parse_options (opts : list (ascii * string)) (o : options) : M options :=
  match opts with
  | [] => ret o
  | (opt, optarg) :: rest =>
      if Ascii.eqb opt "i" then
        parse_options rest (mk_options (Some optarg) (opt_plat_prefix o) (opt_net_id_str o))
      else if Ascii.eqb opt "p" then
        parse_options rest (mk_options (opt_uplink_interface o) (Some optarg) (opt_net_id_str o))
      else if Ascii.eqb opt "n" then
        parse_options rest (mk_options (opt_uplink_interface o) (opt_plat_prefix o) (Some optarg))
      else
        print_help ;; exit 1
  end.

Record boot := mk_boot {
  b_getopt : list (ascii * string);
  (* strtoul(str, &end_ptr, 0): the value and what is left at end_ptr *)
  b_strtoul : string -> Z * string;
  b_open6 : Z * Z;
  b_open4 : Z * Z;
  b_open_forwarding : Z;
  b_socket : Z;
  b_setsockopt : Z;
  b_drop_root : drop_root_status;
  b_configure : configure_inputs;
  b_write_enable : Z;
  b_signal_ok : bool;
  b_time : Z;
  b_script : list iteration;
  b_write_disable : Z
}.

Definition main (b : boot) : M Z :=
  (* the descriptors of tunnel are not read before they are assigned *)
  let tunnel := mk_tun DEVICENAME6 DEVICENAME4 0 0 0 in
  o <- parse_options (b_getopt b) (mk_options None None None) ;;
  match opt_uplink_interface o with
  | None =>
      logmsg ANDROID_LOG_FATAL "clatd called without an interface" ;;
      emit (EvPrintf ("I need an interface" ++ LF)%string) ;;
      exit 1
  | Some uplink_interface =>
      net_id <- match opt_net_id_str o with
                | None => ret NETID_UNSET
                | Some net_id_str =>
                    let r := b_strtoul b net_id_str in
                    if (net_id_str =? "")%string || negb (snd r =? "")%string then
                      logmsg ANDROID_LOG_FATAL "clatd called with invalid NetID %s" ;;
                      exit 1
                    else ret (fst r mod 2 ^ 32)
                end ;;
      logmsg ANDROID_LOG_INFO "Starting clat version %s on %s" ;;

      (* open the tunnel device before dropping privs *)
      fd <- tun_open (b_open6 b) ;;
      let tunnel := mk_tun (device6 tunnel) (device4 tunnel) fd (fd4 tunnel)
                           (write_fd6 tunnel) in
      (if read_fd6 tunnel <? 0 then
         logmsg ANDROID_LOG_FATAL "tun_open6 failed: %s" ;; exit 1
       else ret tt) ;;

      fd <- tun_open (b_open4 b) ;;
      let tunnel := mk_tun (device6 tunnel) (device4 tunnel) (read_fd6 tunnel) fd
                           (write_fd6 tunnel) in
      (if fd4 tunnel <? 0 then
         logmsg ANDROID_LOG_FATAL "tun_open4 failed: %s" ;; exit 1
       else ret tt) ;;

      (* open the forwarding configuration before dropping privs *)
      emit (EvOpen "/proc/sys/net/ipv6/conf/all/forwarding") ;;
      set_forwarding_fd (b_open_forwarding b) ;;
      fwd <- get_forwarding_fd ;;
      (if fwd <? 0 then
         logmsg ANDROID_LOG_FATAL "open /proc/sys/net/ipv6/conf/all/forwarding failed: %s" ;;
         exit 1
       else ret tt) ;;

      tunnel <- open_raw_socket tunnel (b_socket b) (b_setsockopt b) ;;

      (* run under a regular user *)
      drop_root (b_drop_root b) ;;

      emit (EvUnsetenv "ANDROID_DNS_MODE") ;;

      tunnel <- configure_interface uplink_interface (opt_plat_prefix o) tunnel net_id
                                    (b_configure b) ;;

      fwd <- get_forwarding_fd ;;
      set_forwarding fwd ("1" ++ LF)%string (b_write_enable b) ;;

      (* Loop until someone sends us a signal or brings down the tun interface. *)
      emit EvSignalTerm ;;
      (if negb (b_signal_ok b) then
         logmsg ANDROID_LOG_FATAL "sigterm handler failed: %s" ;; exit 1
       else ret tt) ;;
      event_loop tunnel (b_time b) (b_script b) ;;

      fwd <- get_forwarding_fd ;;
      set_forwarding fwd ("0" ++ LF)%string (b_write_disable b) ;;
      logmsg ANDROID_LOG_INFO "Shutting down clat on %s" ;;

      ret 0
  end.

End Daemon.

(** ** Reading a trace *)

(* the process after it has done [evs] more *)
Definition with_events (s : proc) (evs : list event) : proc :=
  mk_proc (forwarding_fd s) (running s) (Global_Clatd_Config s) (trace s ++ evs).

Definition is_translate (e : event) : bool :=
  match e with
  | EvTranslate _ _ _ _ => true
  | _ => false
  end.

(* the hand-offs to the translator, in order *)
Definition translate_calls (t : list event) : list event := filter is_translate t.

Definition route_of (e : event) : option (route_op * in6_addr) :=
  match e with
  | EvIfRoute _ _ dest _ _ _ _ op => Some (op, dest)
  | _ => None
  end.

(* the route changes, in order *)
Fixpoint route_ops (t : list event) : list (route_op * in6_addr) :=
  match t with
  | [] => []
  | e :: t' =>
      match route_of e with
      | Some r => r :: route_ops t'
      | None => route_ops t'
      end
  end.

Definition exit_status (r : outcome Z) : option Z :=
  match r with
  | Done v => Some v
  | Exited c => Some c
  | StillRunning => None
  end.

(** ** What a computation leaves alone *)

(* it leaves Global_Clatd_Config as it found it *)
Definition keeps_config {A} (m : M A) : Prop :=
  forall s, Global_Clatd_Config (snd (m s)) = Global_Clatd_Config s.

(* it needs no input beyond what it is given *)
Definition finishes {A} (m : M A) : Prop :=
  forall s, fst (m s) <> StillRunning.

(* it does not set the running flag again once that is cleared *)
Definition stays_stopped {A} (m : M A) : Prop :=
  forall s, running s = 0 -> running (snd (m s)) = 0.

(** ** Frames *)

(* what read_packet logs about the flags of a frame before it looks at the tag *)
Definition flags_warning (packet : list Byte.byte) : list event :=
  if tun_pi_flags packet =? 0 then []
  else [EvLog ANDROID_LOG_WARN "%s: unexpected flags = %d"].

(* the frame with the two bytes of its flags field cleared *)
Definition clear_flags (packet : list Byte.byte) : list Byte.byte :=
  Byte.x00 :: Byte.x00 :: skipn 2 packet.

(* 0, 1, ..., n-1 *)
Fixpoint upto (n : nat) : list Z :=
  match n with
  | O => []
  | S n' => upto n' ++ [Z.of_nat n']
  end.

(** ** Passes of the loop *)

(* in this pass poll succeeds, a device is readable, and the read on it
   returns 0 bytes *)
Definition zero_length_read (tunnel : tun_data) (it : iteration) : bool :=
  negb (it_poll it =? -1)
  && ((negb (Z.land (fst (it_revents it)) POLLIN =? 0)
       && (read_len (it_read it (read_fd6 tunnel)) =? 0))
      || (negb (Z.land (snd (it_revents it)) POLLIN =? 0)
          && (read_len (it_read it (fd4 tunnel)) =? 0))).

(* the loop has been left: it returned with running = 0, or the process has
   exited *)
Definition loop_over {A} (r : outcome A * proc) : Prop :=
  match fst r with
  | Done _ => running (snd r) = 0
  | Exited _ => True
  | StillRunning => False
  end.


(** ** Two runs of main *)

(* the same start-up and the same world, but write() on the forwarding
   descriptor returns w when main disables forwarding *)
Definition with_write_disable (w : Z) (b : boot) : boot :=
  mk_boot (b_getopt b) (b_strtoul b) (b_open6 b) (b_open4 b) (b_open_forwarding b)
          (b_socket b) (b_setsockopt b) (b_drop_root b) (b_configure b)
          (b_write_enable b) (b_signal_ok b) (b_time b) (b_script b) w.

(* how a run [r0] that shuts down with status 0 relates to the run [rw] that
   differs from it only in the write of the disable step returning [w]; [w0]
   is what that write returns in [r0] *)
Definition disable_failure (w0 w : Z) (r0 rw : outcome Z * proc) : Prop :=
  fst r0 = Done 0 ->
  0 <= w0
  /\ (w < 0 ->
      fst rw = Exited 1
      /\ exists pre fd,
           trace (snd r0) =
             pre ++ [EvWrite fd ("0" ++ LF)%string;
                     EvLog ANDROID_LOG_INFO "Shutting down clat on %s"]
           /\ trace (snd rw) =
                pre ++ [EvWrite fd ("0" ++ LF)%string;
                        EvLog ANDROID_LOG_FATAL "set_forwarding(%s) failed: %s"]).

(** ** Concrete inputs *)

(* one choice of what the files outside clatd.c provide *)
Definition sample_headers : ClatdHeaders := {|
  MAXMTU := 1500;
  INTERFACE_POLL_FREQUENCY := 30;
  NETID_UNSET := 0;
  AID_INET := 3003;
  AID_CLAT := 1029;
  config_generate_local_ipv6_subnet := fun _ ip => mk_in6 (w0 ip) (w1 ip) 0 0x464
|}.

Definition sample_tunnel : tun_data := mk_tun "clat" "clat4" 3 4 6.

Definition subnet_a : in6_addr := mk_in6 0x20010db8 0x0000000a 0 0x464.
Definition subnet_b : in6_addr := mk_in6 0x20010db8 0x0000000b 0 0x464.
Definition uplink_ip_b : in6_addr := mk_in6 0x20010db8 0x0000000b 0x1234 0x5678.

Definition sample_config : clat_config :=
  mk_config 1400 1372 subnet_a (mk_in6 0x20010db8 0x0000000a 0 0x464) 0xc0000004 "rmnet0".

(* Global_Clatd_Config before read_config: a zero-initialised global *)
Definition zero_config : clat_config :=
  mk_config 0 0 (mk_in6 0 0 0 0) (mk_in6 0 0 0 0) 0 "".

(* a configured process in its loop *)
Definition sample_proc : proc := mk_proc 5 1 sample_config [].

Import Byte.

(* tun_pi {flags = 0, proto = 0x0800}, then four bytes of payload *)
Definition ipv4_frame : list byte := [x00; x00; x08; x00; x45; x00; x00; x14].
(* tun_pi {flags = 0, proto = 0x86DD}, then four bytes of payload *)
Definition ipv6_frame : list byte := [x00; x00; x86; xdd; x60; x00; x00; x00].
(* tun_pi {flags = 1, proto = 0x0800}, then four bytes of payload *)
Definition flagged_ipv4_frame : list byte := [x01; x00; x08; x00; x45; x00; x00; x14].
(* three bytes: less than a tun_pi *)
Definition short_frame : list byte := [x00; x00; x08].

Definition reads (frame : list byte) : Z -> read_result := fun _ => ReadBytes frame.

(* the uplink has moved to the prefix of subnet_b; both route calls succeed *)
Definition uplink_moved : uplink_state := mk_uplink (Some uplink_ip_b) 0 0.
(* the uplink has no IPv6 address *)
Definition uplink_down : uplink_state := mk_uplink None 0 0.

(* interface_poll when the uplink has moved from subnet_a to subnet_b *)
Definition poll_moved : outcome unit * proc :=
  interface_poll (hdr := sample_headers) sample_tunnel uplink_moved sample_proc.

Definition drop_root_ok : drop_root_status := mk_drop 0 0 0 0 0.
(* prctl(PR_SET_KEEPCAPS) fails, every other call succeeds *)
Definition drop_root_prctl_fails : drop_root_status := mk_drop 0 (-1) 0 0 0.

Definition tun_ip_ok : tun_ip_status := mk_tun_ip 0 0 0 0 0.

(* read_config succeeds and leaves this configuration; the uplink reports
   this MTU; both TUNSETIFF calls and the address and route calls succeed *)
Definition configure_ok (loaded : clat_config) (ifmtu : Z) : configure_inputs :=
  mk_configure_inputs 1 loaded ifmtu (0, "clat") (0, "clat4") tun_ip_ok.

Definition config_with_mtus (m m4 : Z) : clat_config :=
  set_ipv4mtu m4 (set_mtu m sample_config).

(* configure_interface with these inputs *)
Definition configured (loaded : clat_config) (ifmtu : Z) : outcome tun_data * proc :=
  configure_interface (hdr := sample_headers) "rmnet0" None sample_tunnel 0
                      (configure_ok loaded ifmtu) sample_proc.

(* device 0 (descriptor 3) has an IPv6-tagged frame, device 1 is quiet *)
Definition it_frame6 : iteration :=
  mk_iteration false 1 0 (POLLIN, 0) (reads ipv6_frame) 100 uplink_down.
(* device 1 (descriptor 4) has an IPv4-tagged frame *)
Definition it_frame4 : iteration :=
  mk_iteration false 1 0 (0, POLLIN) (reads ipv4_frame) 101 uplink_down.
(* device 0 is gone: its read returns 0 bytes; device 1 still has a frame *)
Definition it_removed : iteration :=
  mk_iteration false 2 0 (POLLIN, POLLIN)
    (fun fd => if fd =? 3 then ReadBytes [] else ReadBytes ipv4_frame) 102 uplink_down.
(* poll times out with nothing to read *)
Definition it_idle : iteration :=
  mk_iteration false 0 0 (0, 0) (reads []) 103 uplink_down.

(* the loop over a script, entered at time 99 by the sample process *)
Definition looped (script : list iteration) : outcome unit * proc :=
  event_loop (hdr := sample_headers) sample_tunnel 99 script sample_proc.

(* clatd -i rmnet0: every start-up call succeeds; the loop sees one frame and
   then the removal of the first device; the last write returns 2 *)
Definition sample_boot : boot :=
  mk_boot [("i"%char, "rmnet0")] (fun _ => (0, "")) (3, -1) (4, -1) 5 6 0
          drop_root_ok (configure_ok sample_config 1500) 2 true 99
          [it_frame6; it_removed; it_frame4] 2.

(* clatd -i rmnet0 -n notanumber: strtoul stops at the first character *)
Definition bad_netid_boot : boot :=
  mk_boot [("i"%char, "rmnet0"); ("n"%char, "notanumber")] (fun str => (0, str))
          (3, -1) (4, -1) 5 6 0
          drop_root_ok (configure_ok sample_config 1500) 2 true 99
          [it_frame6; it_removed; it_frame4] 2.

Definition booted (b : boot) : outcome Z * proc :=
  main (hdr := sample_headers) b (initial_proc zero_config).

(** ** Kinds of events *)

Inductive kind :=
| KLog | KPrintf | KOpen | KSocket | KSetsockopt | KClose | KTunSetIff | KWrite
| KPrivilege | KUnsetenv | KSignal | KRoute | KAddress | KIfUp | KTranslate.

Definition kind_of (e : event) : kind :=
  match e with
  | EvLog _ _ => KLog
  | EvPrintf _ => KPrintf
  | EvOpen _ => KOpen
  | EvSocketRaw6 => KSocket
  | EvSetsockoptChecksumOff _ => KSetsockopt
  | EvClose _ => KClose
  | EvTunSetIff _ _ => KTunSetIff
  | EvWrite _ _ => KWrite
  | EvSetgroups _ | EvPrctl _ _ | EvSetgid _ | EvSetuid _ | EvCapset _ _ _ _ _ => KPrivilege
  | EvUnsetenv _ => KUnsetenv
  | EvSignalTerm => KSignal
  | EvIfRoute _ _ _ _ _ _ _ _ => KRoute
  | EvAddAddress _ _ _ _ _ => KAddress
  | EvIfUp _ _ => KIfUp
  | EvTranslate _ _ _ _ => KTranslate
  end.

Definition kind_eqb (a b : kind) : bool :=
  match a, b with
  | KLog, KLog | KPrintf, KPrintf | KOpen, KOpen | KSocket, KSocket
  | KSetsockopt, KSetsockopt | KClose, KClose | KTunSetIff, KTunSetIff
  | KWrite, KWrite | KPrivilege, KPrivilege | KUnsetenv, KUnsetenv
  | KSignal, KSignal | KRoute, KRoute | KAddress, KAddress | KIfUp, KIfUp
  | KTranslate, KTranslate => true
  | _, _ => false
  end.

Definition has_kind (ks : list kind) (e : event) : bool :=
  existsb (kind_eqb (kind_of e)) ks.

(* every kind of [ks] is one of [ks'] *)
Definition kinds_within (ks ks' : list kind) : bool :=
  forallb (fun k => existsb (kind_eqb k) ks') ks.

(* no kind of [ks] is one of [ks'] *)
Definition kinds_apart (ks ks' : list kind) : bool :=
  forallb (fun k => negb (existsb (kind_eqb k) ks')) ks.

(** ** Relating the process before and after a computation *)

Definition preorder (R : proc -> proc -> Prop) : Prop :=
  (forall s, R s s) /\ (forall s1 s2 s3, R s1 s2 -> R s2 s3 -> R s1 s3).

(* however the computation ends, it takes a process to one related by [R] *)
Definition steps (R : proc -> proc -> Prop) {A} (m : M A) : Prop :=
  forall s, R s (snd (m s)).

(* the trace has only grown, and only by events that [q] accepts *)
Definition appends (q : event -> bool) (s s' : proc) : Prop :=
  exists evs, trace s' = trace s ++ evs /\ forallb q evs = true.

Definition same_running (s s' : proc) : Prop := running s' = running s.

Definition same_config (s s' : proc) : Prop :=
  Global_Clatd_Config s' = Global_Clatd_Config s.

(* a computation that only adds to the trace, and only events of these kinds *)
Definition emits_only (ks : list kind) {A} (m : M A) : Prop :=
  steps (appends (has_kind ks)) m.

(** ** How a computation ends *)

Inductive ending := Returned | ExitedWith (status : Z) | OutOfInput.

Definition ending_of {A} (r : outcome A) : ending :=
  match r with
  | Done _ => Returned
  | Exited c => ExitedWith c
  | StillRunning => OutOfInput
  end.

(* every run of the computation ends in a way that [O] accepts *)
Definition ends (O : ending -> Prop) {A} (m : M A) : Prop :=
  forall s, O (ending_of (fst (m s))).

(* it returns *)
Definition returns : ending -> Prop := fun e => e = Returned.

(* it returns or exits with status 1 *)
Definition returns_or_exits_1 : ending -> Prop :=
  fun e => e = Returned \/ e = ExitedWith 1.

(** ** Phases of a run *)

(* the events fall into consecutive stretches, one for each list of kinds, in
   this order; a stretch may be empty *)
Fixpoint in_phases (ps : list (list kind)) (evs : list event) : Prop :=
  match ps with
  | [] => evs = []
  | ks :: ps' =>
      exists a b, evs = a ++ b /\ forallb (has_kind ks) a = true /\ in_phases ps' b
  end.

(* a computation that only adds to the trace, and in these phases *)
Definition phased (ps : list (list kind)) {A} (m : M A) : Prop :=
  forall s, exists evs, trace (snd (m s)) = trace s ++ evs /\ in_phases ps evs.

(** ** The route of the clat subnet *)

(* the /128 route that is installed, if any, after one more route call: a
   route is created only when none is installed, and the route deleted is the
   installed one *)
Definition route_step (cur : option in6_addr) (op : route_op * in6_addr)
    : option (option in6_addr) :=
  match op, cur with
  | (ROUTE_CREATE, n), None => Some (Some n)
  | (ROUTE_DELETE, d), Some c => if IN6_ARE_ADDR_EQUAL d c then Some None else None
  | _, _ => None
  end.

(* replay route calls; None when a call does not fit what is installed *)
Fixpoint run_routes (cur : option in6_addr) (ops : list (route_op * in6_addr))
    : option (option in6_addr) :=
  match ops with
  | [] => Some cur
  | op :: rest =>
      match route_step cur op with
      | Some cur' => run_routes cur' rest
      | None => None
      end
  end.

(* the route of the configured subnet was installed and, after the route
   calls made since, the route of the subnet now configured is *)
Definition route_kept (s s' : proc) : Prop :=
  exists evs,
    trace s' = trace s ++ evs
    /\ run_routes (Some (ipv6_local_subnet (Global_Clatd_Config s))) (route_ops evs)
       = Some (Some (ipv6_local_subnet (Global_Clatd_Config s'))).

(* a computation started with no route installed: it exits with status 1
   before any route call, or it leaves the route of the configured subnet *)
Definition installs_route {A} (m : M A) : Prop :=
  forall s, exists evs,
    trace (snd (m s)) = trace s ++ evs
    /\ ((route_ops evs = [] /\ fst (m s) = Exited 1)
        \/ run_routes None (route_ops evs)
           = Some (Some (ipv6_local_subnet (Global_Clatd_Config (snd (m s)))))).

(** ** Inputs of the set-up *)

(* every call configure_interface makes succeeds *)
Definition configure_inputs_ok (inp : configure_inputs) : bool :=
  negb (ci_read_config inp =? 0)
  && negb (fst (ci_ioctl6 inp) <? 0)
  && negb (fst (ci_ioctl4 inp) <? 0)
  && negb (ti_add_address4 (ci_tun_ip inp) <? 0)
  && negb (ti_add_address6 (ci_tun_ip inp) <? 0)
  && negb (ti_if_up6 (ci_tun_ip inp) <? 0)
  && negb (ti_if_up4 (ci_tun_ip inp) <? 0)
  && negb (ti_route (ci_tun_ip inp) <? 0).

(* the option characters main acts on; every other one asks for the help text *)
Definition known_option (opt : ascii) : bool :=
  Ascii.eqb opt "i" || Ascii.eqb opt "p" || Ascii.eqb opt "n".

Definition help_text : list event :=
  [EvPrintf ("android-clat arguments:" ++ LF)%string;
   EvPrintf ("-i [uplink interface]" ++ LF)%string;
   EvPrintf ("-p [plat prefix]" ++ LF)%string;
   EvPrintf ("-n [NetId]" ++ LF)%string].

(* what the end of a run of main looks like *)
Definition main_ended (r : outcome Z * proc) : Prop :=
  match fst r with
  | Done v => v = 0 /\ running (snd r) = 0
  | Exited c => c = 1
  | StillRunning => running (snd r) <> 0
  end.

(* a pass in which no SIGTERM arrives and no read returns 0 bytes *)
Definition quiet (tunnel : tun_data) (it : iteration) : bool :=
  negb (it_sigterm it) && negb (zero_length_read tunnel it).

(* both reads fail, nothing else happens *)
Definition it_read_errors : iteration :=
  mk_iteration false 2 0 (POLLIN, POLLIN) (fun _ => ReadError 5) 100 uplink_moved.
(* poll fails with EBADF at a time when the uplink would be polled *)
Definition it_poll_fails : iteration :=
  mk_iteration false (-1) 9 (POLLIN, POLLIN) (reads ipv4_frame) 200 uplink_moved.
(* thirty seconds after the loop was entered: not yet time to poll the uplink *)
Definition it_early : iteration :=
  mk_iteration false 1 0 (POLLIN, 0) (reads ipv6_frame) 129 uplink_moved.
(* thirty-one seconds after: time to poll *)
Definition it_late : iteration :=
  mk_iteration false 1 0 (POLLIN, 0) (reads ipv6_frame) 130 uplink_moved.

(* clatd -p 64:ff9b::/96: no uplink interface *)
Definition no_interface_boot : boot :=
  mk_boot [("p"%char, "64:ff9b::/96")] (fun _ => (0, "")) (3, -1) (4, -1) 5 6 0
          drop_root_ok (configure_ok sample_config 1500) 2 true 99 [] 2.

(* clatd -i rmnet0 -h *)
Definition help_boot : boot :=
  mk_boot [("i"%char, "rmnet0"); ("h"%char, "")] (fun _ => (0, "")) (3, -1) (4, -1) 5 6 0
          drop_root_ok (configure_ok sample_config 1500) 2 true 99 [] 2.
(** * Properties *)

(** ** The monad *)

(* run the monad's plumbing on a symbolic process *)
Ltac run_m :=
  cbv beta delta [bind ret emit logmsg translate_packet when exit set_running
                  get_config put_config set_forwarding_fd get_forwarding_fd
                  with_events] iota;
  cbn [forwarding_fd running Global_Clatd_Config trace fst snd negb];
  rewrite <- ?app_assoc; cbn [app].

Lemma bind_done {A B} (m : M A) (k : A -> M B) s a s' :
  m s = (Done a, s') -> bind m k s = k a s'.
Proof. intros E. unfold bind. now rewrite E. Qed.

Lemma with_events_app s e1 e2 :
  with_events (with_events s e1) e2 = with_events s (e1 ++ e2).
Proof. unfold with_events. simpl. now rewrite app_assoc. Qed.

Lemma logmsg_with_events p f s : logmsg p f s = (Done tt, with_events s [EvLog p f]).
Proof. reflexivity. Qed.

Lemma bind_ret {A B} (a : A) (k : A -> M B) s : bind (ret a) k s = k a s.
Proof. reflexivity. Qed.

Lemma bind_exit {A B} c (k : A -> M B) s : bind (exit c) k s = (Exited c, s).
Proof. reflexivity. Qed.

Lemma bind_emit {B} e (k : unit -> M B) s : bind (emit e) k s = k tt (with_events s [e]).
Proof. reflexivity. Qed.

Lemma bind_logmsg {B} p f (k : unit -> M B) s :
  bind (logmsg p f) k s = k tt (with_events s [EvLog p f]).
Proof. reflexivity. Qed.

Lemma bind_get_config {B} (k : clat_config -> M B) s :
  bind get_config k s = k (Global_Clatd_Config s) s.
Proof. reflexivity. Qed.

Lemma bind_put_config {B} c (k : unit -> M B) s :
  bind (put_config c) k s = k tt (mk_proc (forwarding_fd s) (running s) c (trace s)).
Proof. reflexivity. Qed.

Lemma bind_assoc {A B C} (m : M A) (f : A -> M B) (g : B -> M C) s :
  bind (bind m f) g s = bind m (fun a => bind (f a) g) s.
Proof. unfold bind. destruct (m s) as [[a|c|] s']; reflexivity. Qed.

(* one step of a computation whose head is a primitive of the monad *)
Ltac m_step :=
  first [ rewrite bind_assoc
        | rewrite bind_ret
        | rewrite bind_exit
        | rewrite bind_emit
        | rewrite bind_logmsg
        | rewrite bind_get_config
        | rewrite bind_put_config ].

(* the end of a computation: unfold what is left and read off the process *)
Ltac m_done :=
  cbv beta delta [exit ret logmsg emit with_events put_config get_config];
  cbn [fst snd trace Global_Clatd_Config forwarding_fd running];
  rewrite <- ?app_assoc; cbn [app].

(** A property of the final process that every continuation keeps holds
    after the whole computation, however it ends. *)
Lemma bind_keeps {A B} (P : proc -> Prop) (m : M A) (k : A -> M B) s :
  P (snd (m s)) ->
  (forall a s', P s' -> P (snd (k a s'))) ->
  P (snd (bind m k s)).
Proof.
  intros Hm Hk. unfold bind.
  destruct (m s) as [[a|c|] s']; cbn [snd] in *; auto.
Qed.

Lemma translate_calls_app t1 t2 :
  translate_calls (t1 ++ t2) = translate_calls t1 ++ translate_calls t2.
Proof. apply filter_app. Qed.

(** ** The framing header *)

Lemma byte_at_range packet i : 0 <= byte_at packet i < 256.
Proof.
  unfold byte_at. pose proof (Byte.to_N_bounded (nth i packet x00)). lia.
Qed.

Lemma In_upto n z : 0 <= z < Z.of_nat n -> In z (upto n).
Proof.
  induction n as [|n IH]; intros Hz; [lia|].
  simpl. apply in_or_app.
  destruct (Z.eq_dec z (Z.of_nat n)) as [->|Hne].
  - right. now left.
  - left. apply IH. lia.
Qed.

Lemma ntohs_swaps lo hi :
  0 <= lo < 256 -> 0 <= hi < 256 ->
  ntohs (Z.lor lo (Z.shiftl hi 8)) = lo * 256 + hi.
Proof.
  intros Hlo Hhi.
  assert (C : forallb (fun l => forallb (fun h =>
               ntohs (Z.lor l (Z.shiftl h 8)) =? l * 256 + h) (upto 256)) (upto 256)
              = true) by (vm_compute; reflexivity).
  rewrite forallb_forall in C.
  specialize (C lo (In_upto 256 lo Hlo)).
  rewrite forallb_forall in C.
  specialize (C hi (In_upto 256 hi Hhi)).
  now apply Z.eqb_eq.
Qed.

(** The protocol tag read_packet tests is the big-endian value of bytes 2
    and 3 of the frame, whatever the byte order of the host. *)
Lemma ntohs_tun_pi_proto packet :
  ntohs (tun_pi_proto packet) = byte_at packet 2 * 256 + byte_at packet 3.
Proof.
  unfold tun_pi_proto, load_u16. apply ntohs_swaps; apply byte_at_range.
Qed.

Lemma load_u16_zero lo hi :
  0 <= lo < 256 -> 0 <= hi < 256 ->
  Z.lor lo (Z.shiftl hi 8) = 0 <-> lo = 0 /\ hi = 0.
Proof.
  intros Hlo Hhi. rewrite Z.lor_eq_0_iff, Z.shiftl_eq_0_iff by lia. tauto.
Qed.

(** The flags field is zero exactly when both of its bytes are. *)
Lemma tun_pi_flags_zero packet :
  tun_pi_flags packet = 0 <-> byte_at packet 0 = 0 /\ byte_at packet 1 = 0.
Proof. apply load_u16_zero; apply byte_at_range. Qed.

(** ** read_packet *)

Lemma read_packet_error active_fd tunnel read errno s :
  read active_fd = ReadError errno ->
  read_packet active_fd tunnel read s =
    (Done tt, with_events s [EvLog ANDROID_LOG_WARN "read_packet/read error: %s"]).
Proof. intros E. unfold read_packet. rewrite E. reflexivity. Qed.

Lemma read_packet_short_frame active_fd tunnel read data s :
  read active_fd = ReadBytes data ->
  0 < Z.of_nat (List.length data) < sizeof_tun_pi ->
  read_packet active_fd tunnel read s =
    (Done tt,
     with_events s [EvLog ANDROID_LOG_WARN "read_packet/short read: got %ld bytes"]).
Proof.
  intros E Hlen. unfold read_packet. rewrite E. cbn [read_len read_buf].
  unfold sizeof_tun_pi in *.
  destruct (Z.ltb_spec (Z.of_nat (List.length data)) 0); [lia|].
  destruct (Z.eqb_spec (Z.of_nat (List.length data)) 0); [lia|].
  destruct (Z.ltb_spec (Z.of_nat (List.length data)) 4); [|lia].
  reflexivity.
Qed.

Lemma read_packet_removed active_fd tunnel read s :
  read_len (read active_fd) = 0 ->
  read_packet active_fd tunnel read s =
    (Done tt,
     mk_proc (forwarding_fd s) 0 (Global_Clatd_Config s)
             (trace s ++ [EvLog ANDROID_LOG_WARN "read_packet/tun interface removed"])).
Proof. intros E. unfold read_packet. rewrite E. reflexivity. Qed.

Lemma read_packet_frame active_fd tunnel read data s :
  read active_fd = ReadBytes data ->
  sizeof_tun_pi <= Z.of_nat (List.length data) ->
  read_packet active_fd tunnel read s =
    (Done tt,
     with_events s
       (flags_warning data ++
        (let proto := ntohs (tun_pi_proto data) in
         if proto =? ETH_P_IP then
           [EvTranslate (write_fd6 tunnel) true (skipn 4 data)
                        (Z.of_nat (List.length data) - sizeof_tun_pi)]
         else if proto =? ETH_P_IPV6 then
           [EvTranslate (fd4 tunnel) false (skipn 4 data)
                        (Z.of_nat (List.length data) - sizeof_tun_pi)]
         else [EvLog ANDROID_LOG_WARN "%s: unknown packet type = 0x%x"]))).
Proof.
  intros E Hlen. unfold read_packet. rewrite E. cbn [read_len read_buf].
  unfold sizeof_tun_pi in *.
  destruct (Z.ltb_spec (Z.of_nat (List.length data)) 0); [lia|].
  destruct (Z.eqb_spec (Z.of_nat (List.length data)) 0); [lia|].
  destruct (Z.ltb_spec (Z.of_nat (List.length data)) 4); [lia|].
  unfold flags_warning, when, translate_calls.
  change (Z.to_nat 4) with 4%nat.
  destruct (tun_pi_flags data =? 0); cbn [negb];
    destruct (ntohs (tun_pi_proto data) =? ETH_P_IP);
    [ | destruct (ntohs (tun_pi_proto data) =? ETH_P_IPV6) .. ];
    run_m; reflexivity.
Qed.

Lemma clear_flags_frame data :
  sizeof_tun_pi <= Z.of_nat (List.length data) ->
  List.length (clear_flags data) = List.length data /\
  tun_pi_flags (clear_flags data) = 0 /\
  tun_pi_proto (clear_flags data) = tun_pi_proto data /\
  skipn 4 (clear_flags data) = skipn 4 data.
Proof.
  unfold sizeof_tun_pi.
  destruct data as [|b0 [|b1 [|b2 [|b3 rest]]]]; cbn [List.length]; try lia.
  intros _. repeat split.
Qed.

(** C9: a frame of one to three bytes, shorter than the tun_pi header, is
    dropped: read_packet logs the short read and returns; the translator is
    not called and nothing else changes, whatever the bytes are. *)
Theorem read_packet_short_read active_fd tunnel read data s :
  read active_fd = ReadBytes data ->
  0 < Z.of_nat (List.length data) < sizeof_tun_pi ->
  read_packet active_fd tunnel read s =
    (Done tt,
     with_events s [EvLog ANDROID_LOG_WARN "read_packet/short read: got %ld bytes"])
  /\ translate_calls (trace (snd (read_packet active_fd tunnel read s)))
     = translate_calls (trace s).
Proof.
  intros E Hlen.
  pose proof (read_packet_short_frame active_fd tunnel read data s E Hlen) as R.
  split; [exact R|].
  rewrite R. cbn [snd with_events trace].
  rewrite translate_calls_app. cbn. apply app_nil_r.
Qed.

Lemma read_packet_short_read_witness :
  read_packet 3 sample_tunnel (reads short_frame) sample_proc =
    (Done tt,
     with_events sample_proc
       [EvLog ANDROID_LOG_WARN "read_packet/short read: got %ld bytes"]).
Proof.
  refine (proj1 (read_packet_short_read 3 sample_tunnel (reads short_frame) short_frame
                   sample_proc eq_refl _)).
  unfold sizeof_tun_pi, short_frame. cbn [List.length]. lia.
Defined.

(** C1 (amended): a frame that holds a whole tun_pi header is handed to the
    translator by its protocol tag.  Tag ETH_P_IP: destination the raw IPv6
    socket write_fd6, flag (proto == ETH_P_IP) true.  Tag ETH_P_IPV6:
    destination the IPv4 device fd4, flag false.  Any other tag: a warning,
    and no call of the translator.  The payload is the frame without its
    header, the length the frame's length minus the header's. *)
Theorem read_packet_dispatch_by_tag active_fd tunnel read data s :
  read active_fd = ReadBytes data ->
  sizeof_tun_pi <= Z.of_nat (List.length data) ->
  let proto := ntohs (tun_pi_proto data) in
  let payload := skipn 4 data in
  let len := Z.of_nat (List.length data) - sizeof_tun_pi in
  (proto = ETH_P_IP ->
   read_packet active_fd tunnel read s =
     (Done tt, with_events s (flags_warning data ++
                              [EvTranslate (write_fd6 tunnel) true payload len])))
  /\
  (proto = ETH_P_IPV6 ->
   read_packet active_fd tunnel read s =
     (Done tt, with_events s (flags_warning data ++
                              [EvTranslate (fd4 tunnel) false payload len])))
  /\
  (proto <> ETH_P_IP -> proto <> ETH_P_IPV6 ->
   read_packet active_fd tunnel read s =
     (Done tt, with_events s (flags_warning data ++
                              [EvLog ANDROID_LOG_WARN "%s: unknown packet type = 0x%x"]))
   /\ translate_calls (trace (snd (read_packet active_fd tunnel read s)))
      = translate_calls (trace s)).
Proof.
  intros E Hlen proto payload len.
  pose proof (read_packet_frame active_fd tunnel read data s E Hlen) as R.
  cbv zeta in R. fold proto in R.
  split; [|split].
  - intros Hp. rewrite R, Hp. reflexivity.
  - intros Hp. rewrite R, Hp. reflexivity.
  - intros H4 H6. rewrite R.
    destruct (Z.eqb_spec proto ETH_P_IP); [contradiction|].
    destruct (Z.eqb_spec proto ETH_P_IPV6); [contradiction|].
    split; [reflexivity|].
    cbn [snd with_events trace]. rewrite !translate_calls_app.
    unfold flags_warning. destruct (tun_pi_flags data =? 0); cbn; apply app_nil_r.
Qed.

Lemma read_packet_dispatch_by_tag_witness :
  read_packet 4 sample_tunnel (reads ipv4_frame) sample_proc =
    (Done tt, with_events sample_proc [EvTranslate 6 true [x45; x00; x00; x14] 4])
  /\
  read_packet 3 sample_tunnel (reads ipv6_frame) sample_proc =
    (Done tt, with_events sample_proc [EvTranslate 4 false [x60; x00; x00; x00] 4]).
Proof.
  split.
  - refine (proj1 (read_packet_dispatch_by_tag 4 sample_tunnel (reads ipv4_frame)
                     ipv4_frame sample_proc eq_refl _) eq_refl).
    unfold sizeof_tun_pi, ipv4_frame. cbn [List.length]. lia.
  - refine (proj1 (proj2 (read_packet_dispatch_by_tag 3 sample_tunnel (reads ipv6_frame)
                            ipv6_frame sample_proc eq_refl _)) eq_refl).
    unfold sizeof_tun_pi, ipv6_frame. cbn [List.length]. lia.
Defined.

(** C1 as the specification states it does not hold: the IPv4-tagged frame
    reaches the translator with the flag true, not false, and the IPv6-tagged
    frame with the flag false, not true. *)
Lemma read_packet_direction_flag_counterexample :
  ntohs (tun_pi_proto ipv4_frame) = ETH_P_IP
  /\ translate_calls
       (trace (snd (read_packet 4 sample_tunnel (reads ipv4_frame) sample_proc)))
     = [EvTranslate (write_fd6 sample_tunnel) true [x45; x00; x00; x14] 4]
  /\ translate_calls
       (trace (snd (read_packet 4 sample_tunnel (reads ipv4_frame) sample_proc)))
     <> [EvTranslate (write_fd6 sample_tunnel) false [x45; x00; x00; x14] 4]
  /\ ntohs (tun_pi_proto ipv6_frame) = ETH_P_IPV6
  /\ translate_calls
       (trace (snd (read_packet 3 sample_tunnel (reads ipv6_frame) sample_proc)))
     = [EvTranslate (fd4 sample_tunnel) false [x60; x00; x00; x00] 4]
  /\ translate_calls
       (trace (snd (read_packet 3 sample_tunnel (reads ipv6_frame) sample_proc)))
     <> [EvTranslate (fd4 sample_tunnel) true [x60; x00; x00; x00] 4].
Proof.
  repeat split; try reflexivity; vm_compute; discriminate.
Qed.

(** C10: nonzero flags in the tun_pi header do not stop a frame.  read_packet
    logs one warning and then does with the frame exactly what it does with
    the same frame whose flags are zero; when the tag is ETH_P_IP or
    ETH_P_IPV6 the translator is called. *)
Theorem read_packet_nonzero_flags active_fd tunnel read data s :
  read active_fd = ReadBytes data ->
  sizeof_tun_pi <= Z.of_nat (List.length data) ->
  tun_pi_flags data <> 0 ->
  read_packet active_fd tunnel read s =
    (logmsg ANDROID_LOG_WARN "%s: unexpected flags = %d" ;;
     read_packet active_fd tunnel (reads (clear_flags data))) s
  /\
  let proto := ntohs (tun_pi_proto data) in
  (proto = ETH_P_IP \/ proto = ETH_P_IPV6 ->
   read_packet active_fd tunnel read s =
     (Done tt,
      with_events s
        [EvLog ANDROID_LOG_WARN "%s: unexpected flags = %d";
         EvTranslate (if proto =? ETH_P_IP then write_fd6 tunnel else fd4 tunnel)
                     (proto =? ETH_P_IP) (skipn 4 data)
                     (Z.of_nat (List.length data) - sizeof_tun_pi)])).
Proof.
  intros E Hlen Hflags.
  pose proof (read_packet_frame active_fd tunnel read data s E Hlen) as R.
  destruct (clear_flags_frame data Hlen) as (Cl & Cf & Cp & Cs).
  assert (Hw : flags_warning data = [EvLog ANDROID_LOG_WARN "%s: unexpected flags = %d"]).
  { unfold flags_warning. destruct (Z.eqb_spec (tun_pi_flags data) 0); [contradiction|].
    reflexivity. }
  rewrite Hw in R. split.
  - rewrite R. unfold bind. rewrite logmsg_with_events.
    rewrite (read_packet_frame active_fd tunnel (reads (clear_flags data))
               (clear_flags data)) by (reflexivity || now rewrite Cl).
    unfold flags_warning. rewrite Cf, Cp, Cs, Cl. cbn [Z.eqb app].
    now rewrite with_events_app.
  - intros proto [Hp|Hp]; rewrite R; cbv zeta; fold proto; rewrite Hp; reflexivity.
Qed.

Lemma read_packet_nonzero_flags_witness :
  read_packet 4 sample_tunnel (reads flagged_ipv4_frame) sample_proc =
    (Done tt,
     with_events sample_proc
       [EvLog ANDROID_LOG_WARN "%s: unexpected flags = %d";
        EvTranslate 6 true [x45; x00; x00; x14] 4]).
Proof.
  refine (proj2 (read_packet_nonzero_flags 4 sample_tunnel (reads flagged_ipv4_frame)
                   flagged_ipv4_frame sample_proc eq_refl _ _) (or_introl eq_refl)).
  - unfold sizeof_tun_pi, flagged_ipv4_frame. cbn [List.length]. lia.
  - vm_compute. discriminate.
Defined.

(** ** interface_poll *)

Lemma IN6_ARE_ADDR_EQUAL_eq a b : IN6_ARE_ADDR_EQUAL a b = true <-> a = b.
Proof.
  unfold IN6_ARE_ADDR_EQUAL. rewrite !andb_true_iff, !Z.eqb_eq.
  destruct a, b; cbn. split.
  - intros [[[-> ->] ->] ->]. reflexivity.
  - intros E. injection E as -> -> -> ->. auto.
Qed.

Lemma IN6_ARE_ADDR_EQUAL_neq a b : a <> b -> IN6_ARE_ADDR_EQUAL a b = false.
Proof.
  intros Hne. destruct (IN6_ARE_ADDR_EQUAL a b) eqn:E; [|reflexivity].
  apply IN6_ARE_ADDR_EQUAL_eq in E. contradiction.
Qed.

Lemma route_ops_app t1 t2 : route_ops (t1 ++ t2) = route_ops t1 ++ route_ops t2.
Proof.
  induction t1 as [|e t1 IH]; [reflexivity|].
  cbn [app route_ops]. destruct (route_of e); cbn [app]; now rewrite IH.
Qed.

(** C2: when the uplink has an address whose derived subnet differs from the
    configured one, interface_poll deletes the /128 route of the old subnet,
    stores the new subnet, and creates the /128 route of the new subnet, each
    once and in that order (a failed delete is logged and passed over, a
    failed create is fatal).  When the derived subnet is the configured one
    nothing happens, and when the uplink has no IPv6 address a warning is
    logged and neither the configuration nor any route is touched. *)
Theorem interface_poll_subnet_change {hdr : ClatdHeaders} tunnel up s :
  let old := ipv6_local_subnet (Global_Clatd_Config s) in
  let r := interface_poll tunnel up s in
  (forall ip6, up_interface_ip up = Some ip6 ->
     let new := config_generate_local_ipv6_subnet (Global_Clatd_Config s) ip6 in
     (new <> old ->
        Global_Clatd_Config (snd r) = set_ipv6_local_subnet new (Global_Clatd_Config s)
        /\ trace (snd r) =
             trace s
             ++ [EvLog ANDROID_LOG_WARN "clat subnet changed from %s to %s";
                 EvIfRoute (device6 tunnel) AF_INET6 old 128 None 1 0 ROUTE_DELETE]
             ++ (if up_delete_status up <? 0
                 then [EvLog ANDROID_LOG_WARN "deconfigure_tun_ipv6/if_route(6) failed: %s"]
                 else [])
             ++ [EvIfRoute (device6 tunnel) AF_INET6 new 128 None 1 0 ROUTE_CREATE]
             ++ (if up_create_status up <? 0
                 then [EvLog ANDROID_LOG_FATAL "configure_tun_ipv6/if_route(6) failed: %s"]
                 else [])
        /\ route_ops (trace (snd r)) =
             route_ops (trace s) ++ [(ROUTE_DELETE, old); (ROUTE_CREATE, new)]
        /\ fst r = (if up_create_status up <? 0 then Exited 1 else Done tt))
     /\ (new = old -> r = (Done tt, s)))
  /\
  (up_interface_ip up = None ->
     r = (Done tt,
          with_events s
            [EvLog ANDROID_LOG_WARN "unable to find an ipv6 ip on interface %s"])
     /\ Global_Clatd_Config (snd r) = Global_Clatd_Config s
     /\ route_ops (trace (snd r)) = route_ops (trace s)).
Proof.
  intros old r. subst r. split.
  - intros ip6 Hip new. unfold interface_poll. rewrite Hip. split.
    + intros Hne. rewrite bind_get_config. fold new old.
      rewrite (IN6_ARE_ADDR_EQUAL_neq _ _ Hne). cbn [negb].
      unfold deconfigure_tun_ipv6, configure_tun_ipv6, when.
      repeat m_step. fold old.
      destruct (up_delete_status up <? 0); repeat m_step;
        cbn [Global_Clatd_Config with_events set_ipv6_local_subnet ipv6_local_subnet];
        destruct (up_create_status up <? 0); repeat m_step; m_done;
        (split; [reflexivity|]); (split; [reflexivity|]);
        (split; [|reflexivity]);
        rewrite route_ops_app; reflexivity.
    + intros Heq. rewrite bind_get_config. fold new old.
      apply IN6_ARE_ADDR_EQUAL_eq in Heq. rewrite Heq. reflexivity.
  - intros Hip. unfold interface_poll. rewrite Hip. rewrite logmsg_with_events.
    split; [reflexivity|]. split; [reflexivity|].
    cbn [snd with_events trace]. rewrite route_ops_app. cbn. apply app_nil_r.
Qed.

Lemma interface_poll_subnet_change_witness :
  (Global_Clatd_Config (snd poll_moved) = set_ipv6_local_subnet subnet_b sample_config
   /\ trace (snd poll_moved) =
        [EvLog ANDROID_LOG_WARN "clat subnet changed from %s to %s";
         EvIfRoute "clat" AF_INET6 subnet_a 128 None 1 0 ROUTE_DELETE;
         EvIfRoute "clat" AF_INET6 subnet_b 128 None 1 0 ROUTE_CREATE]
   /\ route_ops (trace (snd poll_moved))
      = [(ROUTE_DELETE, subnet_a); (ROUTE_CREATE, subnet_b)]
   /\ fst poll_moved = Done tt)
  /\
  interface_poll (hdr := sample_headers) sample_tunnel uplink_down sample_proc =
    (Done tt,
     with_events sample_proc
       [EvLog ANDROID_LOG_WARN "unable to find an ipv6 ip on interface %s"]).
Proof.
  split.
  - refine (proj1 (proj1 (interface_poll_subnet_change (hdr := sample_headers)
                            sample_tunnel uplink_moved sample_proc)
                         uplink_ip_b eq_refl) _).
    vm_compute. discriminate.
  - exact (proj1 (proj2 (interface_poll_subnet_change (hdr := sample_headers)
                           sample_tunnel uplink_down sample_proc) eq_refl)).
Defined.

(** ** drop_root *)

(** C8 (amended): drop_root calls, in this order, setgroups with the one group
    AID_INET, prctl(PR_SET_KEEPCAPS, 1), setgid(AID_CLAT), setuid(AID_CLAT)
    and capset with effective = permitted = 1 << CAP_NET_ADMIN and nothing
    inheritable.  A failure of setgroups, setgid, setuid or capset is fatal: it
    is logged and the process exits with status 1 before the next call.  What
    prctl returns is not looked at: the sequence goes on whatever it is. *)
Theorem drop_root_sequence {hdr : ClatdHeaders} st s :
  let cap := Z.shiftl 1 CAP_NET_ADMIN in
  let calls :=
    [EvSetgroups [AID_INET]; EvPrctl PR_SET_KEEPCAPS 1; EvSetgid AID_CLAT;
     EvSetuid AID_CLAT; EvCapset _LINUX_CAPABILITY_VERSION 0 cap cap 0] in
  cap = 4096 /\
  drop_root st s =
    if dr_setgroups st <? 0 then
      (Exited 1,
       with_events s (firstn 1 calls
                      ++ [EvLog ANDROID_LOG_FATAL "drop_root/setgroups failed: %s"]))
    else if dr_setgid st <? 0 then
      (Exited 1,
       with_events s (firstn 3 calls
                      ++ [EvLog ANDROID_LOG_FATAL "drop_root/setgid failed: %s"]))
    else if dr_setuid st <? 0 then
      (Exited 1,
       with_events s (firstn 4 calls
                      ++ [EvLog ANDROID_LOG_FATAL "drop_root/setuid failed: %s"]))
    else if dr_capset st <? 0 then
      (Exited 1,
       with_events s (calls
                      ++ [EvLog ANDROID_LOG_FATAL "drop_root/capset failed: %s"]))
    else (Done tt, with_events s calls).
Proof.
  intros cap calls. split; [reflexivity|].
  unfold drop_root. fold cap.
  destruct (dr_setgroups st <? 0); repeat m_step; [now rewrite !with_events_app|].
  destruct (dr_setgid st <? 0); repeat m_step; [now rewrite !with_events_app|].
  destruct (dr_setuid st <? 0); repeat m_step; [now rewrite !with_events_app|].
  destruct (dr_capset st <? 0); repeat m_step; unfold exit, ret;
    now rewrite !with_events_app.
Qed.

(** C8 as the specification states it does not hold: with a failing prctl
    and every other call succeeding, drop_root returns normally, all five
    calls made and nothing logged. *)
Lemma drop_root_prctl_failure_counterexample :
  dr_prctl drop_root_prctl_fails = -1
  /\ drop_root (hdr := sample_headers) drop_root_prctl_fails sample_proc =
       (Done tt,
        with_events sample_proc
          [EvSetgroups [3003]; EvPrctl PR_SET_KEEPCAPS 1; EvSetgid 1029; EvSetuid 1029;
           EvCapset _LINUX_CAPABILITY_VERSION 0 4096 4096 0])
  /\ fst (drop_root (hdr := sample_headers) drop_root_prctl_fails sample_proc)
     <> Exited 1.
Proof.
  split; [reflexivity|]. split; [reflexivity|]. vm_compute. discriminate.
Qed.

(** ** What leaves the configuration alone *)

Create HintDb keeps.

Lemma keeps_config_ret {A} (a : A) : keeps_config (ret a).
Proof. intros s. reflexivity. Qed.

Lemma keeps_config_exit {A} c : keeps_config (@exit A c).
Proof. intros s. reflexivity. Qed.

Lemma keeps_config_emit e : keeps_config (emit e).
Proof. intros s. reflexivity. Qed.

Lemma keeps_config_logmsg p f : keeps_config (logmsg p f).
Proof. intros s. reflexivity. Qed.

Lemma keeps_config_get_config : keeps_config get_config.
Proof. intros s. reflexivity. Qed.

Lemma keeps_config_set_running v : keeps_config (set_running v).
Proof. intros s. reflexivity. Qed.

Lemma keeps_config_bind {A B} (m : M A) (k : A -> M B) :
  keeps_config m -> (forall a, keeps_config (k a)) -> keeps_config (bind m k).
Proof.
  intros Hm Hk s.
  apply (bind_keeps (fun s' => Global_Clatd_Config s' = Global_Clatd_Config s)).
  - apply Hm.
  - intros a s' E. now rewrite Hk.
Qed.

Lemma keeps_config_if {A} (b : bool) (m1 m2 : M A) :
  keeps_config m1 -> keeps_config m2 -> keeps_config (if b then m1 else m2).
Proof. now destruct b. Qed.

Lemma keeps_config_when b m : keeps_config m -> keeps_config (when b m).
Proof. intros Hm. unfold when. destruct b; [exact Hm | apply keeps_config_ret]. Qed.

#[local] Hint Resolve keeps_config_ret keeps_config_exit keeps_config_emit
  keeps_config_logmsg keeps_config_get_config keeps_config_set_running
  keeps_config_bind keeps_config_if keeps_config_when : keeps.

Lemma keeps_config_tun_alloc dev fd ioctl :
  keeps_config (tun_alloc dev fd ioctl).
Proof. unfold tun_alloc. auto 10 with keeps. Qed.

Lemma keeps_config_configure_tun_ipv6 tunnel status :
  keeps_config (configure_tun_ipv6 tunnel status).
Proof. unfold configure_tun_ipv6. auto 10 with keeps. Qed.

Lemma keeps_config_deconfigure_tun_ipv6 tunnel status :
  keeps_config (deconfigure_tun_ipv6 tunnel status).
Proof. unfold deconfigure_tun_ipv6. auto 10 with keeps. Qed.

#[local] Hint Resolve keeps_config_tun_alloc keeps_config_configure_tun_ipv6
  keeps_config_deconfigure_tun_ipv6 : keeps.

Lemma keeps_config_configure_tun_ip tunnel st :
  keeps_config (configure_tun_ip tunnel st).
Proof. unfold configure_tun_ip. auto 30 with keeps. Qed.

#[local] Hint Resolve keeps_config_configure_tun_ip : keeps.

(** ** configure_interface *)

(** The configuration configure_interface leaves behind once read_config has
    succeeded, whether or not a later step exits. *)
Lemma configure_interface_config {hdr : ClatdHeaders}
    uplink_interface plat_prefix tunnel net_id inp s :
  ci_read_config inp <> 0 ->
  Global_Clatd_Config
    (snd (configure_interface uplink_interface plat_prefix tunnel net_id inp s)) =
  let c := ci_loaded inp in
  let m1 := if mtu c >? MAXMTU then MAXMTU else mtu c in
  let m2 := if m1 <=? 0 then ci_getifmtu inp else m1 in
  let m3 := if m2 <? 1280 then 1280 else m2 in
  let v := if (ipv4mtu c <=? 0) || (ipv4mtu c >? m3 - MTU_DELTA)
           then m3 - MTU_DELTA else ipv4mtu c in
  set_ipv4mtu v (set_mtu m3 c).
Proof.
  intros Hrc. unfold configure_interface. cbv zeta.
  rewrite bind_put_config.
  destruct (Z.eqb_spec (ci_read_config inp) 0); [contradiction|].
  rewrite bind_ret, bind_get_config. cbn [Global_Clatd_Config].
  destruct (ci_loaded inp) as [m m4 sub addr sub4 pdp].
  cbn [mtu ipv4mtu set_mtu set_ipv4mtu].
  assert (K : forall (m : M tun_data) s0 c,
             keeps_config m -> Global_Clatd_Config s0 = c ->
             Global_Clatd_Config (snd (m s0)) = c).
  { intros m0 s0 c Hk E. now rewrite Hk. }
  destruct (m >? MAXMTU); repeat m_step;
    cbn [Global_Clatd_Config mtu ipv4mtu set_mtu set_ipv4mtu with_events];
    match goal with
    | |- context [?a <=? 0] => destruct (a <=? 0)
    end; repeat m_step;
    cbn [Global_Clatd_Config mtu ipv4mtu set_mtu set_ipv4mtu with_events];
    match goal with
    | |- context [?a <? 1280] => destruct (a <? 1280)
    end; repeat m_step;
    cbn [Global_Clatd_Config mtu ipv4mtu set_mtu set_ipv4mtu with_events];
    match goal with
    | |- context [(?a <=? 0) || (?b >? ?d)] => destruct ((a <=? 0) || (b >? d))
    end; repeat m_step;
    cbn [Global_Clatd_Config mtu ipv4mtu set_mtu set_ipv4mtu with_events];
    (apply K; [auto 30 with keeps | reflexivity]).
Qed.

Ltac split_comparisons :=
  repeat match goal with
         | |- context [?a >? ?b] => destruct (Z.gtb_spec a b)
         | |- context [?a <=? ?b] => destruct (Z.leb_spec a b)
         | |- context [?a <? ?b] => destruct (Z.ltb_spec a b)
         end.

(** C3: with MAXMTU at least 1280, configure_interface leaves in
    Global_Clatd_Config.mtu: MAXMTU when the configured value is above
    MAXMTU; the uplink's MTU as getifmtu reports it, raised to 1280 when it is
    less, when the configured value is 0 or negative; 1280 when the configured
    value is positive and below 1280; the configured value itself from 1280
    up to MAXMTU.  So 1280 is kept and 1279 becomes 1280. *)
Theorem configure_interface_mtu {hdr : ClatdHeaders}
    uplink_interface plat_prefix tunnel net_id inp s :
  ci_read_config inp <> 0 ->
  1280 <= MAXMTU ->
  let m0 := mtu (ci_loaded inp) in
  let m := mtu (Global_Clatd_Config
                  (snd (configure_interface uplink_interface plat_prefix tunnel
                                            net_id inp s))) in
  (MAXMTU < m0 -> m = MAXMTU)
  /\ (m0 <= 0 -> m = if ci_getifmtu inp <? 1280 then 1280 else ci_getifmtu inp)
  /\ (0 < m0 < 1280 -> m = 1280)
  /\ (1280 <= m0 <= MAXMTU -> m = m0)
  /\ (m0 = 1280 -> m = 1280)
  /\ (m0 = 1279 -> m = 1280).
Proof.
  intros Hrc Hmax m0 m. subst m.
  rewrite configure_interface_config by exact Hrc.
  cbv zeta. fold m0. cbn [mtu set_mtu set_ipv4mtu].
  repeat split; intros Hm; split_comparisons; lia.
Qed.

Lemma configure_interface_mtu_witness :
  mtu (Global_Clatd_Config (snd (configured (config_with_mtus 1279 0) 1500))) = 1280
  /\ mtu (Global_Clatd_Config (snd (configured (config_with_mtus 1280 0) 1500))) = 1280
  /\ mtu (Global_Clatd_Config (snd (configured (config_with_mtus 1501 0) 1500))) = 1500
  /\ mtu (Global_Clatd_Config (snd (configured (config_with_mtus 0 0) 1400))) = 1400.
Proof.
  assert (Hrc : forall c m, ci_read_config (configure_ok c m) <> 0)
    by (intros c m; cbn; discriminate).
  assert (Hmax : 1280 <= MAXMTU (ClatdHeaders := sample_headers))
    by (cbn; lia).
  split; [|split; [|split]].
  - refine (proj2 (proj2 (proj2 (proj2 (proj2
      (configure_interface_mtu (hdr := sample_headers) "rmnet0" None sample_tunnel 0
         (configure_ok (config_with_mtus 1279 0) 1500) sample_proc
         (Hrc _ _) Hmax))))) eq_refl).
  - refine (proj1 (proj2 (proj2 (proj2 (proj2
      (configure_interface_mtu (hdr := sample_headers) "rmnet0" None sample_tunnel 0
         (configure_ok (config_with_mtus 1280 0) 1500) sample_proc
         (Hrc _ _) Hmax))))) eq_refl).
  - refine (proj1
      (configure_interface_mtu (hdr := sample_headers) "rmnet0" None sample_tunnel 0
         (configure_ok (config_with_mtus 1501 0) 1500) sample_proc
         (Hrc _ _) Hmax) _).
    cbn. lia.
  - refine (proj1 (proj2
      (configure_interface_mtu (hdr := sample_headers) "rmnet0" None sample_tunnel 0
         (configure_ok (config_with_mtus 0 0) 1400) sample_proc
         (Hrc _ _) Hmax)) _).
    cbn. lia.
Defined.

(** When the configured MTU is 0 or negative and the uplink reports an MTU
    above MAXMTU, that MTU is what configure_interface leaves: the comparison
    with MAXMTU is made before getifmtu is asked and not again after. *)
Lemma configure_interface_mtu_from_uplink {hdr : ClatdHeaders}
    uplink_interface plat_prefix tunnel net_id inp s :
  ci_read_config inp <> 0 ->
  mtu (ci_loaded inp) <= 0 ->
  1280 <= ci_getifmtu inp ->
  mtu (Global_Clatd_Config
         (snd (configure_interface uplink_interface plat_prefix tunnel net_id inp s)))
  = ci_getifmtu inp.
Proof.
  intros Hrc Hm Hif.
  rewrite configure_interface_config by exact Hrc.
  cbv zeta. cbn [mtu set_mtu set_ipv4mtu].
  split_comparisons; lia.
Qed.

(** C4 fails on the code: nothing configured (mtu 0), MAXMTU 1500, and an
    uplink whose MTU is 9000.  configure_interface completes and leaves
    Global_Clatd_Config.mtu = 9000, above MAXMTU. *)
Lemma configure_interface_mtu_above_MAXMTU :
  fst (configured (config_with_mtus 0 0) 9000) = Done (mk_tun "clat" "clat4" 3 4 6)
  /\ mtu (Global_Clatd_Config (snd (configured (config_with_mtus 0 0) 9000))) = 9000
  /\ MAXMTU (ClatdHeaders := sample_headers) = 1500
  /\ MAXMTU (ClatdHeaders := sample_headers)
     < mtu (Global_Clatd_Config (snd (configured (config_with_mtus 0 0) 9000))).
Proof.
  assert (E : mtu (Global_Clatd_Config (snd (configured (config_with_mtus 0 0) 9000)))
              = 9000).
  { apply (configure_interface_mtu_from_uplink (hdr := sample_headers)).
    - cbn. discriminate.
    - cbn. lia.
    - cbn. lia. }
  split; [reflexivity|]. split; [exact E|]. split; [reflexivity|].
  rewrite E. cbn. lia.
Qed.

(** C5: once read_config has succeeded, configure_interface leaves
    Global_Clatd_Config.ipv4mtu equal to mtu - 28 when the configured value is
    0 or negative or above mtu - 28, and equal to the configured value when
    that lies in (0, mtu - 28]; either way ipv4mtu <= mtu - 28 afterwards,
    mtu being the value configure_interface has settled on. *)
Theorem configure_interface_ipv4mtu {hdr : ClatdHeaders}
    uplink_interface plat_prefix tunnel net_id inp s :
  ci_read_config inp <> 0 ->
  let c' := Global_Clatd_Config
              (snd (configure_interface uplink_interface plat_prefix tunnel
                                        net_id inp s)) in
  let v0 := ipv4mtu (ci_loaded inp) in
  MTU_DELTA = 28
  /\ (v0 <= 0 \/ mtu c' - MTU_DELTA < v0 -> ipv4mtu c' = mtu c' - MTU_DELTA)
  /\ (0 < v0 <= mtu c' - MTU_DELTA -> ipv4mtu c' = v0)
  /\ ipv4mtu c' <= mtu c' - MTU_DELTA.
Proof.
  intros Hrc c' v0. subst c'.
  rewrite configure_interface_config by exact Hrc.
  cbv zeta. fold v0. cbn [mtu ipv4mtu set_mtu set_ipv4mtu].
  unfold MTU_DELTA.
  split; [reflexivity|].
  destruct (Z.leb_spec v0 0); cbn [orb];
    [| match goal with
       | |- context [v0 >? ?b] => destruct (Z.gtb_spec v0 b)
       end ];
    cbn [mtu ipv4mtu]; repeat split; lia.
Qed.

Lemma configure_interface_ipv4mtu_witness :
  ipv4mtu (Global_Clatd_Config (snd (configured (config_with_mtus 1400 1400) 1500)))
  = mtu (Global_Clatd_Config (snd (configured (config_with_mtus 1400 1400) 1500)))
    - MTU_DELTA
  /\ ipv4mtu (Global_Clatd_Config (snd (configured (config_with_mtus 1400 1300) 1500)))
     = 1300.
Proof.
  split.
  - refine (proj1 (proj2
      (configure_interface_ipv4mtu (hdr := sample_headers) "rmnet0" None sample_tunnel 0
         (configure_ok (config_with_mtus 1400 1400) 1500) sample_proc _)) _).
    + cbn. discriminate.
    + right. vm_compute. reflexivity.
  - refine (proj1 (proj2 (proj2
      (configure_interface_ipv4mtu (hdr := sample_headers) "rmnet0" None sample_tunnel 0
         (configure_ok (config_with_mtus 1400 1300) 1500) sample_proc _))) _).
    + cbn. discriminate.
    + vm_compute. split; [reflexivity | discriminate].
Defined.

(** ** event_loop *)

Lemma read_packet_running active_fd tunnel read s :
  fst (read_packet active_fd tunnel read s) = Done tt
  /\ (running s = 0 -> running (snd (read_packet active_fd tunnel read s)) = 0)
  /\ (read_len (read active_fd) = 0 ->
      running (snd (read_packet active_fd tunnel read s)) = 0).
Proof.
  destruct (read active_fd) as [errno|data] eqn:E.
  - rewrite (read_packet_error _ _ _ errno s E). cbn. repeat split; auto; lia.
  - destruct (Z.ltb_spec (Z.of_nat (List.length data)) sizeof_tun_pi) as [Hs|Hs].
    + destruct (Z.eqb_spec (Z.of_nat (List.length data)) 0) as [H0|H0].
      * rewrite read_packet_removed by (rewrite E; exact H0). cbn. auto.
      * assert (Hpos : 0 < Z.of_nat (List.length data) < sizeof_tun_pi) by lia.
        pose proof (read_packet_short_frame active_fd tunnel read data s E Hpos) as R.
        rewrite R. cbn. repeat split; auto; lia.
    + rewrite (read_packet_frame active_fd tunnel read data s E) by lia.
      cbn. unfold sizeof_tun_pi in Hs. repeat split; auto. lia.
Qed.

Lemma interface_poll_running {hdr : ClatdHeaders} tunnel up s :
  running (snd (interface_poll tunnel up s)) = running s
  /\ (fst (interface_poll tunnel up s) = Done tt
      \/ fst (interface_poll tunnel up s) = Exited 1).
Proof.
  unfold interface_poll.
  destruct (up_interface_ip up) as [ip6|]; [|cbn; auto].
  rewrite bind_get_config.
  destruct (IN6_ARE_ADDR_EQUAL _ _); cbn [negb]; [cbn; auto|].
  unfold deconfigure_tun_ipv6, configure_tun_ipv6, when.
  repeat m_step.
  destruct (up_delete_status up <? 0); repeat m_step;
    destruct (up_create_status up <? 0); repeat m_step; cbn; auto.
Qed.

(** Only the loop itself can be left waiting for input. *)

Lemma finishes_ret {A} (a : A) : finishes (ret a).
Proof. intros s. discriminate. Qed.

Lemma finishes_exit {A} c : finishes (@exit A c).
Proof. intros s. discriminate. Qed.

Lemma finishes_emit e : finishes (emit e).
Proof. intros s. discriminate. Qed.

Lemma finishes_logmsg p f : finishes (logmsg p f).
Proof. intros s. discriminate. Qed.

Lemma finishes_get_config : finishes get_config.
Proof. intros s. discriminate. Qed.

Lemma finishes_put_config c : finishes (put_config c).
Proof. intros s. discriminate. Qed.

Lemma finishes_set_running v : finishes (set_running v).
Proof. intros s. discriminate. Qed.

Lemma finishes_bind {A B} (m : M A) (k : A -> M B) :
  finishes m -> (forall a, finishes (k a)) -> finishes (bind m k).
Proof.
  intros Hm Hk s. unfold bind. specialize (Hm s).
  destruct (m s) as [[a|c|] s']; cbn [fst] in *.
  - apply Hk.
  - discriminate.
  - contradiction.
Qed.

Lemma finishes_if {A} (b : bool) (m1 m2 : M A) :
  finishes m1 -> finishes m2 -> finishes (if b then m1 else m2).
Proof. now destruct b. Qed.

Lemma finishes_when b m : finishes m -> finishes (when b m).
Proof. intros Hm. unfold when. destruct b; [exact Hm | apply finishes_ret]. Qed.

Lemma finishes_for_each {A} (l : list A) body :
  (forall x, finishes (body x)) -> finishes (for_each l body).
Proof.
  intros Hb. induction l as [|x l IH]; cbn [for_each].
  - apply finishes_ret.
  - apply finishes_bind; auto.
Qed.

Create HintDb finishes.

#[local] Hint Resolve finishes_ret finishes_exit finishes_emit finishes_logmsg
  finishes_get_config finishes_put_config finishes_set_running finishes_bind
  finishes_if finishes_when finishes_for_each : finishes.

Lemma finishes_read_packet active_fd tunnel read :
  finishes (read_packet active_fd tunnel read).
Proof.
  intros s. destruct (read_packet_running active_fd tunnel read s) as [E _].
  rewrite E. discriminate.
Qed.

Lemma finishes_interface_poll {hdr : ClatdHeaders} tunnel up :
  finishes (interface_poll tunnel up).
Proof.
  intros s. destruct (interface_poll_running tunnel up s) as [_ [E|E]];
    rewrite E; discriminate.
Qed.

#[local] Hint Resolve finishes_read_packet finishes_interface_poll : finishes.


(** Nothing sets the running flag again once it is cleared. *)

Lemma stays_stopped_ret {A} (a : A) : stays_stopped (ret a).
Proof. intros s E. exact E. Qed.

Lemma stays_stopped_exit {A} c : stays_stopped (@exit A c).
Proof. intros s E. exact E. Qed.

Lemma stays_stopped_emit e : stays_stopped (emit e).
Proof. intros s E. exact E. Qed.

Lemma stays_stopped_logmsg p f : stays_stopped (logmsg p f).
Proof. intros s E. exact E. Qed.

Lemma stays_stopped_stop_loop : stays_stopped stop_loop.
Proof. intros s E. reflexivity. Qed.

Lemma stays_stopped_bind {A B} (m : M A) (k : A -> M B) :
  stays_stopped m -> (forall a, stays_stopped (k a)) -> stays_stopped (bind m k).
Proof.
  intros Hm Hk s E.
  apply (bind_keeps (fun s' => running s' = 0)).
  - now apply Hm.
  - intros a s' E'. now apply Hk.
Qed.

Lemma stays_stopped_if {A} (b : bool) (m1 m2 : M A) :
  stays_stopped m1 -> stays_stopped m2 -> stays_stopped (if b then m1 else m2).
Proof. now destruct b. Qed.

Lemma stays_stopped_when b m : stays_stopped m -> stays_stopped (when b m).
Proof. intros Hm. unfold when. destruct b; [exact Hm | apply stays_stopped_ret]. Qed.

Lemma stays_stopped_for_each {A} (l : list A) body :
  (forall x, stays_stopped (body x)) -> stays_stopped (for_each l body).
Proof.
  intros Hb. induction l as [|x l IH]; cbn [for_each].
  - apply stays_stopped_ret.
  - apply stays_stopped_bind; auto.
Qed.

Lemma stays_stopped_read_packet active_fd tunnel read :
  stays_stopped (read_packet active_fd tunnel read).
Proof.
  intros s E. destruct (read_packet_running active_fd tunnel read s) as (_ & H & _).
  exact (H E).
Qed.

Lemma stays_stopped_interface_poll {hdr : ClatdHeaders} tunnel up :
  stays_stopped (interface_poll tunnel up).
Proof.
  intros s E. destruct (interface_poll_running tunnel up s) as [H _]. congruence.
Qed.

Create HintDb stopped.

#[local] Hint Resolve stays_stopped_ret stays_stopped_exit stays_stopped_emit
  stays_stopped_logmsg stays_stopped_stop_loop stays_stopped_bind stays_stopped_if
  stays_stopped_when stays_stopped_for_each stays_stopped_read_packet
  stays_stopped_interface_poll : stopped.

(** ** Leaving the loop *)



Lemma loop_over_bind {A B} (m : M A) (k : A -> M B) s :
  finishes m ->
  (forall a s', m s = (Done a, s') -> loop_over (k a s')) ->
  loop_over (bind m k s).
Proof.
  intros Hf Hk. specialize (Hf s). unfold bind.
  destruct (m s) as [[a|c|] s']; cbn [fst] in *.
  - now apply Hk.
  - exact I.
  - contradiction.
Qed.





(** ** main *)

Lemma bind_get_forwarding_fd {B} (k : Z -> M B) s :
  bind get_forwarding_fd k s = k (forwarding_fd s) s.
Proof. reflexivity. Qed.

(** Two runs that start with the same computation from the same process are
    related when their continuations are, whatever that computation does. *)
Lemma bind_two_runs {A B} (Q : outcome B * proc -> outcome B * proc -> Prop)
    (m : M A) (k1 k2 : A -> M B) s :
  (forall a s', Q (k1 a s') (k2 a s')) ->
  (forall c s', Q (Exited c, s') (Exited c, s')) ->
  (forall s', Q (StillRunning, s') (StillRunning, s')) ->
  Q (bind m k1 s) (bind m k2 s).
Proof.
  intros Hk He Hr. unfold bind. destruct (m s) as [[a|c|] s']; auto.
Qed.

Lemma disable_failure_exited w0 w c s1 s2 :
  disable_failure w0 w (Exited c, s1) (Exited c, s2).
Proof. intros E. discriminate E. Qed.

Lemma disable_failure_still_running w0 w s1 s2 :
  disable_failure w0 w (StillRunning, s1) (StillRunning, s2).
Proof. intros E. discriminate E. Qed.

Lemma disable_failure_exit w0 w c s1 s2 :
  disable_failure w0 w (@exit Z c s1) (@exit Z c s2).
Proof. apply disable_failure_exited. Qed.

(* the last three lines of main, in the two runs *)
Lemma disable_failure_shutdown w0 w fwd s :
  disable_failure w0 w
    ((set_forwarding fwd ("0" ++ LF)%string w0 ;;
      logmsg ANDROID_LOG_INFO "Shutting down clat on %s" ;;
      ret 0) s)
    ((set_forwarding fwd ("0" ++ LF)%string w ;;
      logmsg ANDROID_LOG_INFO "Shutting down clat on %s" ;;
      ret 0) s).
Proof.
  unfold disable_failure, set_forwarding.
  repeat m_step.
  destruct (Z.ltb_spec w0 0) as [H0|H0]; repeat m_step.
  - intros E. discriminate E.
  - intros _. split; [exact H0|]. intros Hw.
    destruct (Z.ltb_spec w 0) as [_|Hge]; [|lia].
    repeat m_step. m_done. split; [reflexivity|].
    exists (trace s), fwd. split; reflexivity.
Qed.

Ltac two_runs_step w0 w :=
  apply (bind_two_runs (disable_failure w0 w));
  [ intros ? ?
  | intros ? ?; apply disable_failure_exited
  | intros ?; apply disable_failure_still_running ].

Lemma main_disable_failure {hdr : ClatdHeaders} b s w :
  disable_failure (b_write_disable b) w (main b s) (main (with_write_disable w b) s).
Proof.
  unfold main. cbv zeta.
  cbn [with_write_disable b_getopt b_strtoul b_open6 b_open4 b_open_forwarding
       b_socket b_setsockopt b_drop_root b_configure b_write_enable b_signal_ok
       b_time b_script b_write_disable].
  two_runs_step (b_write_disable b) w.
  destruct (opt_uplink_interface a) as [uplink_interface|].
  - repeat two_runs_step (b_write_disable b) w.
    apply disable_failure_shutdown.
  - repeat two_runs_step (b_write_disable b) w.
    apply disable_failure_exit.
Qed.

(** C7 (amended): a failure of the write that disables forwarding is fatal,
    as a failure of the write that enables it is.  Take a run of main that
    shuts down with status 0; the write of its disable step did not fail.
    The run that differs only in that write failing does the same up to and
    including the write, then logs at FATAL level instead of announcing the
    shutdown, and exits with status 1. *)
Theorem main_forwarding_disable_failure {hdr : ClatdHeaders} b s w :
  fst (main b s) = Done 0 ->
  w < 0 ->
  0 <= b_write_disable b
  /\ fst (main (with_write_disable w b) s) = Exited 1
  /\ exists pre fd,
       trace (snd (main b s)) =
         pre ++ [EvWrite fd ("0" ++ LF)%string;
                 EvLog ANDROID_LOG_INFO "Shutting down clat on %s"]
       /\ trace (snd (main (with_write_disable w b) s)) =
            pre ++ [EvWrite fd ("0" ++ LF)%string;
                    EvLog ANDROID_LOG_FATAL "set_forwarding(%s) failed: %s"].
Proof.
  intros Hok Hw.
  destruct (main_disable_failure b s w Hok) as [H0 Hfail].
  split; [exact H0|]. exact (Hfail Hw).
Qed.

Lemma main_forwarding_disable_failure_witness :
  0 <= b_write_disable sample_boot
  /\ fst (booted (with_write_disable (-1) sample_boot)) = Exited 1
  /\ exists pre fd,
       trace (snd (booted sample_boot)) =
         pre ++ [EvWrite fd ("0" ++ LF)%string;
                 EvLog ANDROID_LOG_INFO "Shutting down clat on %s"]
       /\ trace (snd (booted (with_write_disable (-1) sample_boot))) =
            pre ++ [EvWrite fd ("0" ++ LF)%string;
                    EvLog ANDROID_LOG_FATAL "set_forwarding(%s) failed: %s"].
Proof.
  refine (main_forwarding_disable_failure (hdr := sample_headers) sample_boot
            (initial_proc zero_config) (-1) _ _).
  - vm_compute. reflexivity.
  - lia.
Defined.

(** C7 as the specification states it does not hold: every start-up step
    succeeds, the loop stops on the removal of a device, and the write of the
    disable step returns -1.  The process exits with status 1, not 0, its
    last two acts the write and a FATAL log. *)
Lemma main_forwarding_disable_counterexample :
  fst (booted sample_boot) = Done 0
  /\ b_write_disable (with_write_disable (-1) sample_boot) = -1
  /\ fst (booted (with_write_disable (-1) sample_boot)) = Exited 1
  /\ running (snd (booted (with_write_disable (-1) sample_boot))) = 0
  /\ skipn 24 (trace (snd (booted (with_write_disable (-1) sample_boot)))) =
       [EvWrite 5 ("0" ++ LF)%string;
        EvLog ANDROID_LOG_FATAL "set_forwarding(%s) failed: %s"]
  /\ exit_status (fst (booted (with_write_disable (-1) sample_boot))) <> Some 0.
Proof.
  repeat split; try (vm_compute; reflexivity). vm_compute. discriminate.
Qed.

Lemma parse_options_done opts : forall o s o' s',
  parse_options opts o s = (Done o', s') -> s' = s.
Proof.
  induction opts as [|[opt optarg] rest IH]; intros o s o' s' E.
  - cbn in E. now injection E as _ <-.
  - cbn [parse_options] in E.
    destruct (Ascii.eqb opt "i"); [exact (IH _ _ _ _ E)|].
    destruct (Ascii.eqb opt "p"); [exact (IH _ _ _ _ E)|].
    destruct (Ascii.eqb opt "n"); [exact (IH _ _ _ _ E)|].
    discriminate E.
Qed.

(** X2: started with an uplink interface and a NetID that is empty or that
    strtoul does not read to its end, main logs the invalid NetID at FATAL
    level and exits with status 1; it has opened nothing and done nothing
    else. *)
Theorem main_invalid_netid {hdr : ClatdHeaders} b s o s' uplink_interface net_id_str :
  parse_options (b_getopt b) (mk_options None None None) s = (Done o, s') ->
  opt_uplink_interface o = Some uplink_interface ->
  opt_net_id_str o = Some net_id_str ->
  net_id_str = "" \/ snd (b_strtoul b net_id_str) <> "" ->
  main b s =
    (Exited 1,
     with_events s [EvLog ANDROID_LOG_FATAL "clatd called with invalid NetID %s"]).
Proof.
  intros Ho Hi Hn Hbad.
  pose proof (parse_options_done _ _ _ _ _ Ho). subst s'.
  unfold main. cbv zeta. rewrite (bind_done _ _ _ _ _ Ho). cbv beta.
  rewrite Hi, Hn.
  assert (Hc : (net_id_str =? "")%string
               || negb (snd (b_strtoul b net_id_str) =? "")%string = true).
  { destruct Hbad as [-> | Hne]; [reflexivity|].
    apply orb_true_iff. right. apply negb_true_iff.
    now apply String.eqb_neq. }
  rewrite Hc. repeat m_step. reflexivity.
Qed.

Lemma main_invalid_netid_witness :
  booted bad_netid_boot =
    (Exited 1,
     with_events (initial_proc zero_config)
       [EvLog ANDROID_LOG_FATAL "clatd called with invalid NetID %s"]).
Proof.
  refine (main_invalid_netid (hdr := sample_headers) bad_netid_boot
            (initial_proc zero_config)
            (mk_options (Some "rmnet0") None (Some "notanumber"))
            (initial_proc zero_config) "rmnet0" "notanumber" eq_refl eq_refl eq_refl _).
  right. cbn. discriminate.
Defined.

(** * More of clatd.c *)

(** ** configure_tun_ip *)

(** X3: configure_tun_ip gives both devices their addresses before it brings
    either up, brings the IPv6 device up before the IPv4 one, each with its
    own MTU, and creates the route last.  The first call that fails is fatal:
    it is logged, the process exits with status 1, and none of the later
    calls is made. *)
Theorem configure_tun_ip_sequence tunnel st s :
  let c := Global_Clatd_Config s in
  let calls :=
    [EvAddAddress (device4 tunnel) AF_INET (Ip4 (ipv4_local_subnet c)) 32
                  (Some (Ip4 (ipv4_local_subnet c)));
     EvAddAddress (device6 tunnel) AF_INET6 (Ip6 (ipv6_local_address c)) 64 None;
     EvIfUp (device6 tunnel) (mtu c);
     EvIfUp (device4 tunnel) (ipv4mtu c);
     EvIfRoute (device6 tunnel) AF_INET6 (ipv6_local_subnet c) 128 None 1 0
               ROUTE_CREATE] in
  configure_tun_ip tunnel st s =
    if ti_add_address4 st <? 0 then
      (Exited 1,
       with_events s
         (firstn 1 calls
          ++ [EvLog ANDROID_LOG_FATAL "configure_tun_ip/if_address(4) failed: %s"]))
    else if ti_add_address6 st <? 0 then
      (Exited 1,
       with_events s
         (firstn 2 calls
          ++ [EvLog ANDROID_LOG_FATAL "configure_tun_ip/if_address(6) failed: %s"]))
    else if ti_if_up6 st <? 0 then
      (Exited 1,
       with_events s
         (firstn 3 calls
          ++ [EvLog ANDROID_LOG_FATAL "configure_tun_ip/if_up(6) failed: %s"]))
    else if ti_if_up4 st <? 0 then
      (Exited 1,
       with_events s
         (firstn 4 calls
          ++ [EvLog ANDROID_LOG_FATAL "configure_tun_ip/if_up(4) failed: %s"]))
    else if ti_route st <? 0 then
      (Exited 1,
       with_events s
         (calls
          ++ [EvLog ANDROID_LOG_FATAL "configure_tun_ipv6/if_route(6) failed: %s"]))
    else (Done tt, with_events s calls).
Proof.
  intros c calls. unfold configure_tun_ip, configure_tun_ipv6.
  rewrite bind_get_config. fold c.
  destruct (ti_add_address4 st <? 0); repeat m_step; [now rewrite !with_events_app|].
  destruct (ti_add_address6 st <? 0); repeat m_step; [now rewrite !with_events_app|].
  destruct (ti_if_up6 st <? 0); repeat m_step; [now rewrite !with_events_app|].
  destruct (ti_if_up4 st <? 0); repeat m_step; [now rewrite !with_events_app|].
  cbn [Global_Clatd_Config with_events]. fold c.
  destruct (ti_route st <? 0); repeat m_step; unfold exit, ret;
    now rewrite !with_events_app.
Qed.

(** ** tun_alloc *)

Lemma substring_0_length n : forall str,
  String.length (substring 0 n str) = Nat.min n (String.length str).
Proof.
  induction n as [|n IH]; intros [|a str]; cbn; auto.
Qed.

Lemma substring_0_prefix n : forall str, String.prefix (substring 0 n str) str = true.
Proof.
  induction n as [|n IH]; intros [|a str]; cbn; auto.
  destruct (ascii_dec a a) as [_|Hne]; [apply IH | now contradiction Hne].
Qed.

Lemma substring_0_all n : forall str,
  (String.length str <= n)%nat -> substring 0 n str = str.
Proof.
  induction n as [|n IH]; intros [|a str] Hlen; cbn in *; auto.
  - lia.
  - f_equal. apply IH. lia.
Qed.

(** X4: the name tun_alloc asks the kernel for is the start of the name it
    was given, cut to the IFNAMSIZ - 1 = 15 characters an ifr_name holds, and
    the given name itself when that is short enough.  When the ioctl fails
    tun_alloc closes the descriptor and returns the error with the name
    unchanged; when it succeeds it returns 0 and the name the kernel chose,
    and closes nothing. *)
Theorem tun_alloc_name dev fd ioctl s :
  let asked := ifr_name_of dev in
  (String.length asked <= 15)%nat
  /\ String.prefix asked dev = true
  /\ ((String.length dev <= 15)%nat -> asked = dev)
  /\ tun_alloc dev fd ioctl s =
       if fst ioctl <? 0
       then (Done (fst ioctl, dev), with_events s [EvTunSetIff fd asked; EvClose fd])
       else (Done (0, snd ioctl), with_events s [EvTunSetIff fd asked]).
Proof.
  intros asked. subst asked. unfold ifr_name_of, IFNAMSIZ.
  change (16 - 1)%nat with 15%nat.
  split; [rewrite substring_0_length; lia|].
  split; [apply substring_0_prefix|].
  split; [apply substring_0_all|].
  unfold tun_alloc, ifr_name_of, IFNAMSIZ. change (16 - 1)%nat with 15%nat.
  repeat m_step.
  destruct (fst ioctl <? 0); repeat m_step; unfold ret; now rewrite ?with_events_app.
Qed.

(** ** configure_interface *)

(** X5: configure_interface returns exactly when read_config, both TUNSETIFF
    ioctls, both add_address calls, both if_up calls and the creation of the
    route succeed, whatever MTUs are configured; the tunnel it returns has the
    device names the kernel chose and the descriptors it was given.  When any
    of these calls fails the process exits with status 1. *)
Theorem configure_interface_outcome {hdr : ClatdHeaders}
    uplink_interface plat_prefix tunnel net_id inp s :
  fst (configure_interface uplink_interface plat_prefix tunnel net_id inp s) =
    if configure_inputs_ok inp
    then Done (mk_tun (snd (ci_ioctl6 inp)) (snd (ci_ioctl4 inp))
                      (read_fd6 tunnel) (fd4 tunnel) (write_fd6 tunnel))
    else Exited 1.
Proof.
  unfold configure_interface, configure_inputs_ok. cbv zeta.
  rewrite bind_put_config.
  destruct (ci_read_config inp =? 0); cbn [negb andb]; [repeat m_step; reflexivity|].
  rewrite bind_ret, bind_get_config. cbn [Global_Clatd_Config].
  destruct (ci_loaded inp) as [m m4 sub addr sub4 pdp].
  destruct (ci_tun_ip inp) as [a4 a6 u6 u4 rt].
  destruct (ci_ioctl6 inp) as [e6 n6]. destruct (ci_ioctl4 inp) as [e4 n4].
  cbn [mtu ipv4mtu set_mtu set_ipv4mtu fst snd
       ti_add_address4 ti_add_address6 ti_if_up6 ti_if_up4 ti_route].
  destruct (m >? MAXMTU); repeat m_step;
    cbn [Global_Clatd_Config mtu ipv4mtu set_mtu set_ipv4mtu with_events];
    match goal with
    | |- context [(if ?a <=? 0 then _ else _)] => destruct (a <=? 0)
    end; repeat m_step;
    cbn [Global_Clatd_Config mtu ipv4mtu set_mtu set_ipv4mtu with_events];
    match goal with
    | |- context [?a <? 1280] => destruct (a <? 1280)
    end; repeat m_step;
    cbn [Global_Clatd_Config mtu ipv4mtu set_mtu set_ipv4mtu with_events];
    match goal with
    | |- context [(?a <=? 0) || (?b >? ?d)] => destruct ((a <=? 0) || (b >? d))
    end; repeat m_step;
    cbn [Global_Clatd_Config mtu ipv4mtu set_mtu set_ipv4mtu with_events];
    unfold tun_alloc, configure_tun_ip, configure_tun_ipv6;
    cbn [fst snd ti_add_address4 ti_add_address6 ti_if_up6 ti_if_up4 ti_route];
    repeat m_step;
    (destruct (e6 <? 0) eqn:E6; repeat m_step; cbn [fst snd]; rewrite ?E6;
     cbn [negb andb]; repeat m_step; [reflexivity|]);
    change (0 <? 0) with false; cbv iota; repeat m_step;
    (destruct (e4 <? 0) eqn:E4; repeat m_step; cbn [fst snd]; rewrite ?E4;
     cbn [negb andb]; repeat m_step; [reflexivity|]);
    change (0 <? 0) with false; cbv iota; repeat m_step;
    (destruct (a4 <? 0); cbn [negb andb]; repeat m_step; [reflexivity|]);
    (destruct (a6 <? 0); cbn [negb andb]; repeat m_step; [reflexivity|]);
    (destruct (u6 <? 0); cbn [negb andb]; repeat m_step; [reflexivity|]);
    (destruct (u4 <? 0); cbn [negb andb]; repeat m_step; [reflexivity|]);
    (destruct (rt <? 0); cbn [negb andb]; repeat m_step; reflexivity).
Qed.

(** ** Relations kept by every step *)

Lemma steps_still {A} R (m : M A) :
  preorder R -> (forall s, snd (m s) = s) -> steps R m.
Proof. intros [Hr _] E s. rewrite E. apply Hr. Qed.

Lemma steps_ret {A} R (a : A) : preorder R -> steps R (ret a).
Proof. intros HR. now apply steps_still. Qed.

Lemma steps_exit {A} R c : preorder R -> steps R (@exit A c).
Proof. intros HR. now apply steps_still. Qed.

Lemma steps_get_config R : preorder R -> steps R get_config.
Proof. intros HR. now apply steps_still. Qed.

Lemma steps_get_forwarding_fd R : preorder R -> steps R get_forwarding_fd.
Proof. intros HR. now apply steps_still. Qed.

Lemma steps_bind {A B} R (m : M A) (k : A -> M B) :
  preorder R -> steps R m -> (forall a, steps R (k a)) -> steps R (bind m k).
Proof.
  intros [_ Ht] Hm Hk s.
  apply (bind_keeps (R s)); [apply Hm|].
  intros a s' H. exact (Ht _ _ _ H (Hk a s')).
Qed.

Lemma steps_if {A} R (b : bool) (m1 m2 : M A) :
  steps R m1 -> steps R m2 -> steps R (if b then m1 else m2).
Proof. now destruct b. Qed.

Lemma steps_when R b m : preorder R -> steps R m -> steps R (when b m).
Proof. intros HR Hm. unfold when. destruct b; [exact Hm | now apply steps_ret]. Qed.

Lemma steps_option {A B} R (o : option A) (n : M B) (f : A -> M B) :
  steps R n -> (forall a, steps R (f a)) ->
  steps R (match o with Some a => f a | None => n end).
Proof. intros Hn Hf. destruct o; auto. Qed.

Lemma steps_for_each {A} R (l : list A) body :
  preorder R -> (forall x, steps R (body x)) -> steps R (for_each l body).
Proof.
  intros HR Hb. induction l as [|x l IH]; cbn [for_each].
  - now apply steps_ret.
  - apply steps_bind; auto.
Qed.

Lemma preorder_appends q : preorder (appends q).
Proof.
  split.
  - intros s. exists []. now rewrite app_nil_r.
  - intros s1 s2 s3 (e1 & E1 & Q1) (e2 & E2 & Q2). exists (e1 ++ e2).
    rewrite E2, E1, app_assoc, forallb_app, Q1, Q2. auto.
Qed.

Lemma preorder_same_running : preorder same_running.
Proof. split; unfold same_running; intros; congruence. Qed.

Lemma preorder_same_config : preorder same_config.
Proof. split; unfold same_config; intros; congruence. Qed.

Lemma appends_emit q e : q e = true -> steps (appends q) (emit e).
Proof. intros Hq s. exists [e]. cbn. now rewrite Hq. Qed.

Lemma appends_logmsg q p f : q (EvLog p f) = true -> steps (appends q) (logmsg p f).
Proof. apply appends_emit. Qed.

Lemma appends_set_running q v : steps (appends q) (set_running v).
Proof. intros s. exists []. cbn. now rewrite app_nil_r. Qed.

Lemma appends_put_config q c : steps (appends q) (put_config c).
Proof. intros s. exists []. cbn. now rewrite app_nil_r. Qed.

Lemma appends_set_forwarding_fd q v : steps (appends q) (set_forwarding_fd v).
Proof. intros s. exists []. cbn. now rewrite app_nil_r. Qed.

Lemma same_running_emit e : steps same_running (emit e).
Proof. intros s. reflexivity. Qed.

Lemma same_running_logmsg p f : steps same_running (logmsg p f).
Proof. intros s. reflexivity. Qed.

Lemma same_running_put_config c : steps same_running (put_config c).
Proof. intros s. reflexivity. Qed.

Lemma same_config_emit e : steps same_config (emit e).
Proof. intros s. reflexivity. Qed.

Lemma same_config_logmsg p f : steps same_config (logmsg p f).
Proof. intros s. reflexivity. Qed.

Lemma same_config_set_running v : steps same_config (set_running v).
Proof. intros s. reflexivity. Qed.

Lemma has_kind_within ks ks' e :
  kinds_within ks ks' = true -> has_kind ks e = true -> has_kind ks' e = true.
Proof.
  unfold kinds_within, has_kind. rewrite forallb_forall, !existsb_exists.
  intros Hw (k & Hin & Hk).
  assert (kind_of e = k) by (destruct (kind_of e), k; cbn in Hk; congruence).
  subst k. specialize (Hw _ Hin). now apply existsb_exists in Hw.
Qed.

Lemma has_kind_apart ks ks' e :
  kinds_apart ks ks' = true -> has_kind ks e = true -> has_kind ks' e = false.
Proof.
  unfold kinds_apart, has_kind. rewrite forallb_forall, existsb_exists.
  intros Hw (k & Hin & Hk).
  assert (kind_of e = k) by (destruct (kind_of e), k; cbn in Hk; congruence).
  subst k. specialize (Hw _ Hin). now apply negb_true_iff in Hw.
Qed.

Lemma appends_weaken (q q' : event -> bool) s s' :
  (forall e, q e = true -> q' e = true) -> appends q s s' -> appends q' s s'.
Proof.
  intros Hq (evs & E & Q). exists evs. split; [exact E|].
  rewrite forallb_forall in *. auto.
Qed.

Lemma emits_only_within ks ks' {A} (m : M A) :
  kinds_within ks ks' = true -> emits_only ks m -> emits_only ks' m.
Proof.
  intros Hw Hm s. apply (appends_weaken (has_kind ks)); [|apply Hm].
  intros e. now apply has_kind_within.
Qed.

Create HintDb steps.

#[local] Hint Resolve steps_ret steps_exit steps_get_config steps_get_forwarding_fd
  steps_bind steps_if steps_when steps_option steps_for_each
  preorder_appends preorder_same_running preorder_same_config
  appends_emit appends_logmsg appends_set_running appends_put_config
  appends_set_forwarding_fd
  same_running_emit same_running_logmsg same_running_put_config
  same_config_emit same_config_logmsg same_config_set_running : steps.

#[local] Hint Extern 1 (_ = true) => reflexivity : steps.

(** ** How every step ends *)

Lemma ends_bind {A B} (O : ending -> Prop) (m : M A) (k : A -> M B) :
  ends O m -> (forall a, ends O (k a)) -> ends O (bind m k).
Proof.
  intros Hm Hk s. specialize (Hm s). unfold bind.
  destruct (m s) as [[a|c|] s']; cbn [fst ending_of] in *; auto. apply Hk.
Qed.

Lemma ends_if {A} O (b : bool) (m1 m2 : M A) :
  ends O m1 -> ends O m2 -> ends O (if b then m1 else m2).
Proof. now destruct b. Qed.

Lemma ends_option {A B} O (o : option A) (n : M B) (f : A -> M B) :
  ends O n -> (forall a, ends O (f a)) ->
  ends O (match o with Some a => f a | None => n end).
Proof. intros Hn Hf. destruct o; auto. Qed.

Lemma returns_ret {A} (a : A) : ends returns (ret a).
Proof. intros s. reflexivity. Qed.

Lemma returns_emit e : ends returns (emit e).
Proof. intros s. reflexivity. Qed.

Lemma returns_logmsg p f : ends returns (logmsg p f).
Proof. intros s. reflexivity. Qed.

Lemma returns_get_config : ends returns get_config.
Proof. intros s. reflexivity. Qed.

Lemma returns_put_config c : ends returns (put_config c).
Proof. intros s. reflexivity. Qed.

Lemma returns_set_running v : ends returns (set_running v).
Proof. intros s. reflexivity. Qed.

Lemma returns_set_forwarding_fd v : ends returns (set_forwarding_fd v).
Proof. intros s. reflexivity. Qed.

Lemma returns_get_forwarding_fd : ends returns get_forwarding_fd.
Proof. intros s. reflexivity. Qed.

Lemma returns_when b m : ends returns m -> ends returns (when b m).
Proof. intros Hm. unfold when. destruct b; [exact Hm | apply returns_ret]. Qed.

Lemma returns_for_each {A} (l : list A) body :
  (forall x, ends returns (body x)) -> ends returns (for_each l body).
Proof.
  intros Hb. induction l as [|x l IH]; cbn [for_each].
  - apply returns_ret.
  - apply ends_bind; auto.
Qed.

Lemma returns_or_exits_1_exit {A} : ends returns_or_exits_1 (@exit A 1).
Proof. intros s. now right. Qed.

Lemma returns_weaken {A} (m : M A) : ends returns m -> ends returns_or_exits_1 m.
Proof. intros Hm s. left. apply Hm. Qed.

Create HintDb ends.

#[local] Hint Resolve ends_bind ends_if ends_option returns_ret returns_emit
  returns_logmsg returns_get_config returns_put_config returns_set_running
  returns_set_forwarding_fd returns_get_forwarding_fd returns_when
  returns_for_each : ends.

(** ** What read_packet and interface_poll touch *)

Lemma read_packet_emits active_fd tunnel read :
  emits_only [KLog; KTranslate] (read_packet active_fd tunnel read).
Proof. unfold emits_only, read_packet, translate_packet. cbv zeta. auto 20 with steps. Qed.

Lemma read_packet_same_config active_fd tunnel read :
  steps same_config (read_packet active_fd tunnel read).
Proof. unfold read_packet, translate_packet. cbv zeta. auto 20 with steps. Qed.

Lemma read_packet_returns active_fd tunnel read :
  ends returns (read_packet active_fd tunnel read).
Proof. unfold read_packet, translate_packet. cbv zeta. auto 20 with ends. Qed.

Lemma interface_poll_emits {hdr : ClatdHeaders} tunnel up :
  emits_only [KLog; KRoute] (interface_poll tunnel up).
Proof.
  unfold emits_only, interface_poll, deconfigure_tun_ipv6, configure_tun_ipv6.
  auto 30 with steps.
Qed.

Lemma interface_poll_returns_or_exits {hdr : ClatdHeaders} tunnel up :
  ends returns_or_exits_1 (interface_poll tunnel up).
Proof.
  intros s. destruct (interface_poll_running tunnel up s) as [_ [E|E]]; rewrite E.
  - now left.
  - now right.
Qed.

Lemma interface_poll_same_running {hdr : ClatdHeaders} tunnel up :
  steps same_running (interface_poll tunnel up).
Proof. intros s. now destruct (interface_poll_running tunnel up s). Qed.

(* a read that returns anything but 0 bytes leaves the running flag alone *)
Lemma read_packet_same_running active_fd tunnel read :
  read_len (read active_fd) <> 0 ->
  steps same_running (read_packet active_fd tunnel read).
Proof.
  intros Hlen s. unfold same_running.
  destruct (read active_fd) as [errno|data] eqn:E.
  - now rewrite (read_packet_error _ _ _ errno s E).
  - cbn [read_len] in Hlen.
    destruct (Z.ltb_spec (Z.of_nat (List.length data)) sizeof_tun_pi) as [Hs|Hs].
    + rewrite (read_packet_short_frame active_fd tunnel read data s E) by lia.
      reflexivity.
    + now rewrite (read_packet_frame active_fd tunnel read data s E) by lia.
Qed.

Lemma when_read_packet_same_running revents fd tunnel read :
  negb (Z.land revents POLLIN =? 0) && (read_len (read fd) =? 0) = false ->
  steps same_running
    (when (negb (Z.land revents POLLIN =? 0)) (read_packet fd tunnel read)).
Proof.
  intros H. unfold when.
  destruct (negb (Z.land revents POLLIN =? 0)); cbn [andb] in H.
  - apply read_packet_same_running. now apply Z.eqb_neq.
  - apply steps_ret, preorder_same_running.
Qed.

Lemma loop_body_quiet {hdr : ClatdHeaders} tunnel last it :
  quiet tunnel it = true -> steps same_running (loop_body tunnel last it).
Proof.
  unfold quiet, zero_length_read.
  rewrite andb_true_iff, !negb_true_iff. intros [Hsig Hz].
  unfold loop_body. rewrite Hsig. cbv zeta.
  change (when false stop_loop) with (ret tt).
  pose proof preorder_same_running as HR.
  pose proof (interface_poll_same_running tunnel (it_uplink it)) as HP.
  destruct (it_poll it =? -1); cbn [negb andb] in Hz.
  - auto 20 with steps.
  - apply orb_false_iff in Hz. destruct Hz as [H0 H1].
    pose proof (when_read_packet_same_running _ _ tunnel _ H0) as W0.
    pose proof (when_read_packet_same_running _ _ tunnel _ H1) as W1.
    cbn [for_each fst snd]. auto 20 with steps.
Qed.

Lemma event_loop_from_quiet {hdr : ClatdHeaders} tunnel script :
  forallb (quiet tunnel) script = true ->
  forall last s,
    running s <> 0 ->
    running (snd (event_loop_from tunnel last script s)) = running s
    /\ fst (event_loop_from tunnel last script s) <> Done tt.
Proof.
  induction script as [|it rest IH]; intros Hq last s Hrun;
    cbn [event_loop_from]; pose proof Hrun as Hne; apply Z.eqb_neq in Hne; rewrite Hne.
  - split; [reflexivity | discriminate].
  - cbn [forallb] in Hq. apply andb_true_iff in Hq. destruct Hq as [Hit Hrest].
    pose proof (loop_body_quiet tunnel last it Hit s) as Hb. unfold same_running in Hb.
    unfold bind.
    destruct (loop_body tunnel last it s) as [[l|c|] s']; cbn [fst snd] in *.
    + assert (Hrun' : running s' <> 0) by congruence.
      destruct (IH Hrest l s' Hrun') as [Hk Hd]. split; [congruence | exact Hd].
    + split; [exact Hb | discriminate].
    + split; [exact Hb | discriminate].
Qed.

(** X6: the loop returns only after SIGTERM or a read of 0 bytes.  Over
    passes in which neither happens, whatever else does (failed polls, failed
    reads, short, flagged or unknown frames, uplink polls), the running flag
    stays as it was, and a loop entered with the flag set has not returned:
    it goes on, or the process has exited. *)
Theorem event_loop_returns_only_when_stopped {hdr : ClatdHeaders}
    tunnel time0 script s :
  running s <> 0 ->
  forallb (quiet tunnel) script = true ->
  running (snd (event_loop tunnel time0 script s)) = running s
  /\ fst (event_loop tunnel time0 script s) <> Done tt.
Proof.
  intros Hrun Hq. unfold event_loop. now apply event_loop_from_quiet.
Qed.

Lemma event_loop_returns_only_when_stopped_witness :
  running (snd (looped [it_frame6; it_read_errors; it_poll_fails; it_idle])) = 1
  /\ fst (looped [it_frame6; it_read_errors; it_poll_fails; it_idle]) <> Done tt.
Proof.
  refine (event_loop_returns_only_when_stopped (hdr := sample_headers) sample_tunnel 99
            [it_frame6; it_read_errors; it_poll_fails; it_idle] sample_proc _ eq_refl).
  cbn. discriminate.
Defined.

(** ** What a pass of the loop touches *)

Lemma loop_body_emits {hdr : ClatdHeaders} tunnel last it :
  emits_only [KLog; KTranslate; KRoute] (loop_body tunnel last it).
Proof.
  pose proof (fun fd => emits_only_within [KLog; KTranslate] [KLog; KTranslate; KRoute]
                          (read_packet fd tunnel (it_read it)) eq_refl
                          (read_packet_emits fd tunnel (it_read it))) as HR.
  pose proof (emits_only_within [KLog; KRoute] [KLog; KTranslate; KRoute] _ eq_refl
                (interface_poll_emits tunnel (it_uplink it))) as HP.
  unfold emits_only in *. unfold loop_body, stop_loop. cbv zeta.
  auto 30 with steps.
Qed.

Lemma event_loop_from_emits {hdr : ClatdHeaders} tunnel script :
  forall last, emits_only [KLog; KTranslate; KRoute] (event_loop_from tunnel last script).
Proof.
  pose proof (preorder_appends (has_kind [KLog; KTranslate; KRoute])) as HR.
  induction script as [|it rest IH]; intros last s; cbn [event_loop_from];
    destruct (running s =? 0); try apply HR.
  apply (steps_bind _ _ _ HR (loop_body_emits tunnel last it)).
  intros l. apply IH.
Qed.

Lemma route_ops_without_routes ks evs :
  kinds_apart ks [KRoute] = true ->
  forallb (has_kind ks) evs = true -> route_ops evs = [].
Proof.
  intros Hap. induction evs as [|e evs IH]; cbn [forallb route_ops]; [reflexivity|].
  rewrite andb_true_iff. intros [He Hevs].
  pose proof (has_kind_apart _ _ e Hap He) as Hr.
  destruct e; cbn in Hr; try discriminate Hr; cbn [route_of]; auto.
Qed.


Lemma fst_bind_ret {A B} (m : M A) (v : B) s :
  ends returns m -> fst (bind m (fun _ => ret v) s) = Done v.
Proof.
  intros Hm. specialize (Hm s). unfold bind, returns in *.
  destruct (m s) as [[a|c|] s']; cbn in *; congruence.
Qed.

(** X7: a pass of the loop polls the uplink only when more than
    INTERFACE_POLL_FREQUENCY seconds lie between the time of the pass and the
    last poll.  In any other pass, whatever is read, the configuration and
    the routes are left alone and the time of the last poll is kept; in a pass
    that polls, the time of the pass becomes the time of the last poll unless
    the process exits, which it does with status 1. *)
Theorem loop_body_uplink_poll_timer {hdr : ClatdHeaders} tunnel last it s :
  (it_now it - INTERFACE_POLL_FREQUENCY <= last ->
     fst (loop_body tunnel last it s) = Done last
     /\ Global_Clatd_Config (snd (loop_body tunnel last it s)) = Global_Clatd_Config s
     /\ route_ops (trace (snd (loop_body tunnel last it s))) = route_ops (trace s))
  /\
  (last < it_now it - INTERFACE_POLL_FREQUENCY ->
     fst (loop_body tunnel last it s) = Done (it_now it)
     \/ fst (loop_body tunnel last it s) = Exited 1).
Proof.
  set (reads_of :=
         (if it_poll it =? -1
          then when (negb (it_errno it =? EINTR))
                    (logmsg ANDROID_LOG_WARN "event_loop/poll returned an error: %s")
          else for_each [(read_fd6 tunnel, fst (it_revents it));
                         (fd4 tunnel, snd (it_revents it))]
                 (fun w => when (negb (Z.land (snd w) POLLIN =? 0))
                                (read_packet (fst w) tunnel (it_read it))))).
  set (pre := (when (it_sigterm it) stop_loop ;; reads_of)).
  pose proof (fun fd => read_packet_returns fd tunnel (it_read it)) as Hret.
  assert (Rpre : ends returns pre)
    by (subst pre reads_of; unfold stop_loop; auto 20 with ends).
  split.
  - intros Hdue. apply Z.ltb_ge in Hdue.
    assert (E : loop_body tunnel last it s = bind pre (fun _ => ret last) s).
    { unfold loop_body. cbv zeta. rewrite Hdue. subst pre reads_of.
      now rewrite bind_assoc. }
    rewrite E. split; [now apply fst_bind_ret|].
    pose proof (fun fd => read_packet_same_config fd tunnel (it_read it)) as Hcfg.
    pose proof (fun fd => read_packet_emits fd tunnel (it_read it)) as Hem.
    pose proof preorder_same_config as HC.
    pose proof (preorder_appends (has_kind [KLog; KTranslate])) as HA.
    split.
    + assert (S : steps same_config (bind pre (fun _ => ret last)))
        by (subst pre reads_of; unfold stop_loop; auto 20 with steps).
      apply S.
    + assert (S : emits_only [KLog; KTranslate] (bind pre (fun _ => ret last)))
        by (unfold emits_only in *; subst pre reads_of; unfold stop_loop;
            auto 20 with steps).
      destruct (S s) as (evs & Et & Q). rewrite Et, route_ops_app.
      rewrite (route_ops_without_routes [KLog; KTranslate] evs eq_refl Q). apply app_nil_r.
  - intros Hdue. apply Z.ltb_lt in Hdue.
    assert (E : loop_body tunnel last it s =
                bind pre (fun _ => interface_poll tunnel (it_uplink it) ;;
                                   ret (it_now it)) s).
    { unfold loop_body. cbv zeta. rewrite Hdue. subst pre reads_of.
      now rewrite bind_assoc. }
    rewrite E. specialize (Rpre s). unfold bind, returns in *.
    destruct (pre s) as [[[]|c|] s1]; cbn in Rpre; try discriminate Rpre.
    destruct (interface_poll_running tunnel (it_uplink it) s1) as [_ Ho].
    destruct (interface_poll tunnel (it_uplink it) s1) as [o s2]. cbn [fst] in Ho.
    destruct Ho as [-> | ->]; cbn; auto.
Qed.

Lemma loop_body_uplink_poll_timer_witness :
  (fst (loop_body (hdr := sample_headers) sample_tunnel 99 it_early sample_proc) = Done 99
   /\ Global_Clatd_Config
        (snd (loop_body (hdr := sample_headers) sample_tunnel 99 it_early sample_proc))
      = Global_Clatd_Config sample_proc
   /\ route_ops
        (trace (snd (loop_body (hdr := sample_headers) sample_tunnel 99 it_early
                               sample_proc)))
      = route_ops (trace sample_proc))
  /\ (fst (loop_body (hdr := sample_headers) sample_tunnel 99 it_late sample_proc)
      = Done 130
      \/ fst (loop_body (hdr := sample_headers) sample_tunnel 99 it_late sample_proc)
         = Exited 1).
Proof.
  split.
  - refine (proj1 (loop_body_uplink_poll_timer (hdr := sample_headers) sample_tunnel 99
                     it_early sample_proc) _).
    cbn. lia.
  - refine (proj2 (loop_body_uplink_poll_timer (hdr := sample_headers) sample_tunnel 99
                     it_late sample_proc) _).
    cbn. lia.
Defined.




(** X9: all the loop does to the outside world is log, hand frames to the
    translator and change routes: in any run of event_loop the trace only
    grows, and only by events of these three kinds.  It opens, closes and
    writes nothing, changes no privilege, address or interface state. *)
Theorem event_loop_footprint {hdr : ClatdHeaders} tunnel time0 script s :
  exists evs,
    trace (snd (event_loop tunnel time0 script s)) = trace s ++ evs
    /\ forallb (has_kind [KLog; KTranslate; KRoute]) evs = true.
Proof. unfold event_loop. apply event_loop_from_emits. Qed.

(** ** The command line *)

Lemma bind_exited {A B} (m : M A) (k : A -> M B) s c s' :
  m s = (Exited c, s') -> bind m k s = (Exited c, s').
Proof. intros E. unfold bind. now rewrite E. Qed.

Lemma parse_options_unknown opts : forall o s,
  existsb (fun p => negb (known_option (fst p))) opts = true ->
  parse_options opts o s = (Exited 1, with_events s help_text).
Proof.
  induction opts as [|[opt optarg] rest IH]; intros o s Hex; [discriminate Hex|].
  cbn [existsb fst] in Hex. cbn [parse_options]. unfold known_option in Hex.
  destruct (Ascii.eqb opt "i"); [exact (IH _ _ Hex)|].
  destruct (Ascii.eqb opt "p"); [exact (IH _ _ Hex)|].
  destruct (Ascii.eqb opt "n"); [exact (IH _ _ Hex)|].
  unfold print_help. repeat m_step. unfold exit, help_text.
  now rewrite !with_events_app.
Qed.

Lemma parse_options_known opts : forall o s,
  forallb (fun p => known_option (fst p)) opts = true ->
  exists o', parse_options opts o s = (Done o', s)
             /\ (existsb (fun p => Ascii.eqb (fst p) "i") opts = false ->
                 opt_uplink_interface o' = opt_uplink_interface o).
Proof.
  induction opts as [|[opt optarg] rest IH]; intros o s Hall.
  - exists o. split; reflexivity.
  - cbn [forallb fst] in Hall. apply andb_true_iff in Hall. destruct Hall as [Hk Hrest].
    cbn [parse_options existsb fst]. unfold known_option in Hk.
    destruct (Ascii.eqb opt "i").
    + destruct (IH (mk_options (Some optarg) (opt_plat_prefix o) (opt_net_id_str o))
                   s Hrest) as (o' & E & _).
      exists o'. split; [exact E | discriminate].
    + destruct (Ascii.eqb opt "p").
      * destruct (IH (mk_options (opt_uplink_interface o) (Some optarg) (opt_net_id_str o))
                     s Hrest) as (o' & E & Hu).
        exists o'. split; [exact E | exact Hu].
      * destruct (Ascii.eqb opt "n"); [|discriminate Hk].
        destruct (IH (mk_options (opt_uplink_interface o) (opt_plat_prefix o) (Some optarg))
                     s Hrest) as (o' & E & Hu).
        exists o'. split; [exact E | exact Hu].
Qed.

(** X10: -h, or any option character other than i, p and n, anywhere on the
    command line makes main print the four lines of the help text and exit
    with status 1, whatever the other options are: nothing is logged and
    nothing is opened. *)
Theorem main_help {hdr : ClatdHeaders} b s :
  existsb (fun p => negb (known_option (fst p))) (b_getopt b) = true ->
  main b s = (Exited 1, with_events s help_text).
Proof.
  intros Hex. unfold main. cbv zeta.
  apply bind_exited. now apply parse_options_unknown.
Qed.

Lemma main_help_witness :
  booted help_boot = (Exited 1, with_events (initial_proc zero_config) help_text).
Proof.
  exact (main_help (hdr := sample_headers) help_boot (initial_proc zero_config) eq_refl).
Defined.

(** X11: when every option is one of i, p and n and none is i, main logs at
    FATAL level that it was called without an interface, prints that it needs
    one, and exits with status 1, having opened nothing. *)
Theorem main_without_interface {hdr : ClatdHeaders} b s :
  forallb (fun p => known_option (fst p)) (b_getopt b) = true ->
  existsb (fun p => Ascii.eqb (fst p) "i") (b_getopt b) = false ->
  main b s =
    (Exited 1,
     with_events s [EvLog ANDROID_LOG_FATAL "clatd called without an interface";
                    EvPrintf ("I need an interface" ++ LF)%string]).
Proof.
  intros Hall Hno.
  destruct (parse_options_known (b_getopt b) (mk_options None None None) s Hall)
    as (o & E & Hu).
  specialize (Hu Hno). cbn in Hu.
  unfold main. cbv zeta. rewrite (bind_done _ _ _ _ _ E). cbv beta. rewrite Hu.
  repeat m_step. unfold exit. now rewrite !with_events_app.
Qed.

Lemma main_without_interface_witness :
  booted no_interface_boot =
    (Exited 1,
     with_events (initial_proc zero_config)
       [EvLog ANDROID_LOG_FATAL "clatd called without an interface";
        EvPrintf ("I need an interface" ++ LF)%string]).
Proof.
  exact (main_without_interface (hdr := sample_headers) no_interface_boot
           (initial_proc zero_config) eq_refl eq_refl).
Defined.

(** ** How main ends *)

Lemma exits_1_ret {A} (a : A) : ends returns_or_exits_1 (ret a).
Proof. apply returns_weaken, returns_ret. Qed.

Lemma exits_1_emit e : ends returns_or_exits_1 (emit e).
Proof. apply returns_weaken, returns_emit. Qed.

Lemma exits_1_logmsg p f : ends returns_or_exits_1 (logmsg p f).
Proof. apply returns_weaken, returns_logmsg. Qed.

Lemma exits_1_get_config : ends returns_or_exits_1 get_config.
Proof. apply returns_weaken, returns_get_config. Qed.

Lemma exits_1_put_config c : ends returns_or_exits_1 (put_config c).
Proof. apply returns_weaken, returns_put_config. Qed.

Lemma exits_1_set_running v : ends returns_or_exits_1 (set_running v).
Proof. apply returns_weaken, returns_set_running. Qed.

Lemma exits_1_set_forwarding_fd v : ends returns_or_exits_1 (set_forwarding_fd v).
Proof. apply returns_weaken, returns_set_forwarding_fd. Qed.

Lemma exits_1_get_forwarding_fd : ends returns_or_exits_1 get_forwarding_fd.
Proof. apply returns_weaken, returns_get_forwarding_fd. Qed.

Lemma exits_1_when b m :
  ends returns_or_exits_1 m -> ends returns_or_exits_1 (when b m).
Proof. intros Hm. unfold when. destruct b; [exact Hm | apply exits_1_ret]. Qed.

Lemma exits_1_for_each {A} (l : list A) body :
  (forall x, ends returns_or_exits_1 (body x)) ->
  ends returns_or_exits_1 (for_each l body).
Proof.
  intros Hb. induction l as [|x l IH]; cbn [for_each].
  - apply exits_1_ret.
  - apply ends_bind; auto.
Qed.

Create HintDb exits.

#[local] Hint Resolve ends_bind ends_if ends_option exits_1_ret exits_1_emit
  exits_1_logmsg exits_1_get_config exits_1_put_config exits_1_set_running
  exits_1_set_forwarding_fd exits_1_get_forwarding_fd exits_1_when exits_1_for_each
  returns_or_exits_1_exit : exits.

Lemma exits_1_parse_options opts : forall o,
  ends returns_or_exits_1 (parse_options opts o).
Proof.
  induction opts as [|[opt optarg] rest IH]; intros o; cbn [parse_options].
  - apply exits_1_ret.
  - unfold print_help. repeat apply ends_if; auto 10 with exits.
Qed.

Lemma exits_1_tun_open opens : ends returns_or_exits_1 (tun_open opens).
Proof. unfold tun_open. cbv zeta. auto 10 with exits. Qed.

Lemma exits_1_open_raw_socket tunnel so opt :
  ends returns_or_exits_1 (open_raw_socket tunnel so opt).
Proof. unfold open_raw_socket. cbv zeta. auto 20 with exits. Qed.

Lemma exits_1_drop_root {hdr : ClatdHeaders} st :
  ends returns_or_exits_1 (drop_root st).
Proof. unfold drop_root. cbv zeta. auto 30 with exits. Qed.

Lemma exits_1_set_forwarding fd setting w :
  ends returns_or_exits_1 (set_forwarding fd setting w).
Proof. unfold set_forwarding. auto 10 with exits. Qed.

Lemma exits_1_configure_interface {hdr : ClatdHeaders}
    uplink_interface plat_prefix tunnel net_id inp :
  ends returns_or_exits_1
    (configure_interface uplink_interface plat_prefix tunnel net_id inp).
Proof.
  unfold configure_interface, tun_alloc, configure_tun_ip, configure_tun_ipv6.
  cbv zeta. auto 60 with exits.
Qed.

Lemma exits_1_loop_body {hdr : ClatdHeaders} tunnel last it :
  ends returns_or_exits_1 (loop_body tunnel last it).
Proof.
  pose proof (fun fd => returns_weaken _ (read_packet_returns fd tunnel (it_read it)))
    as HR.
  pose proof (interface_poll_returns_or_exits tunnel (it_uplink it)) as HP.
  unfold loop_body, stop_loop. cbv zeta. auto 30 with exits.
Qed.

#[local] Hint Resolve exits_1_parse_options exits_1_tun_open exits_1_open_raw_socket
  exits_1_drop_root exits_1_set_forwarding exits_1_configure_interface : exits.

(* how the loop can be left: returned with the flag cleared, exited with
   status 1, or out of passes with the flag still set *)
Lemma event_loop_from_ended {hdr : ClatdHeaders} tunnel script : forall last s,
  match fst (event_loop_from tunnel last script s) with
  | Done _ => running (snd (event_loop_from tunnel last script s)) = 0
  | Exited c => c = 1
  | StillRunning => running (snd (event_loop_from tunnel last script s)) <> 0
  end.
Proof.
  induction script as [|it rest IH]; intros last s; cbn [event_loop_from];
    destruct (Z.eqb_spec (running s) 0) as [E|E]; cbn [fst snd]; auto.
  pose proof (exits_1_loop_body tunnel last it s) as Hb.
  unfold bind. unfold returns_or_exits_1 in Hb.
  destruct (loop_body tunnel last it s) as [[l|c|] s']; cbn [fst snd ending_of] in *.
  - apply IH.
  - destruct Hb as [Hb|Hb]; [discriminate Hb | now injection Hb].
  - destruct Hb as [Hb|Hb]; discriminate Hb.
Qed.

Lemma main_ended_bind {A} (m : M A) (k : A -> M Z) s :
  ends returns_or_exits_1 m ->
  (forall a s', main_ended (k a s')) ->
  main_ended (bind m k s).
Proof.
  intros Hm Hk. specialize (Hm s). unfold bind, returns_or_exits_1 in *.
  destruct (m s) as [[a|c|] s']; cbn [fst ending_of] in *.
  - apply Hk.
  - destruct Hm as [Hm|Hm]; [discriminate Hm|]. injection Hm as ->. reflexivity.
  - destruct Hm as [Hm|Hm]; discriminate Hm.
Qed.

Lemma main_ended_shutdown fwd w s :
  running s = 0 ->
  main_ended
    ((set_forwarding fwd ("0" ++ LF)%string w ;;
      logmsg ANDROID_LOG_INFO "Shutting down clat on %s" ;;
      ret 0) s).
Proof.
  intros Hs. unfold set_forwarding. repeat m_step.
  destruct (w <? 0); repeat m_step; unfold main_ended; cbn; auto.
Qed.

Ltac main_step :=
  apply main_ended_bind; [solve [auto 10 with exits] | intros ? ?].

(** X12: main ends in one of three ways.  It returns, and then it returns 0
    and the running flag has been cleared; or the process exits, and then with
    status 1; or the passes it is given run out while it is still in its
    loop, the running flag set.  No other status is ever produced. *)
Theorem main_exit_status {hdr : ClatdHeaders} b s :
  match fst (main b s) with
  | Done v => v = 0 /\ running (snd (main b s)) = 0
  | Exited c => c = 1
  | StillRunning => running (snd (main b s)) <> 0
  end.
Proof.
  change (main_ended (main b s)).
  unfold main. cbv zeta.
  main_step.
  destruct (opt_uplink_interface a) as [uplink_interface|].
  2: { repeat main_step. reflexivity. }
  repeat main_step.
  (* the loop, and what follows it *)
  match goal with
  | |- main_ended (bind (event_loop ?t ?now ?script) _ ?st) =>
      pose proof (event_loop_from_ended t script now st) as HL;
      unfold event_loop; unfold bind at 1;
      destruct (event_loop_from t now script st) as [[[]|c|] s1]
  end; cbn [fst snd] in HL.
  - rewrite bind_get_forwarding_fd. now apply main_ended_shutdown.
  - exact HL.
  - exact HL.
Qed.

(** ** The order of what main does *)

Lemma in_phases_nil ps : in_phases ps [].
Proof.
  induction ps as [|ks ps IH]; cbn [in_phases]; [reflexivity|].
  exists [], []. auto.
Qed.

Lemma in_phases_head ks ps a evs :
  forallb (has_kind ks) a = true ->
  in_phases (ks :: ps) evs -> in_phases (ks :: ps) (a ++ evs).
Proof.
  intros Ha (a' & b & -> & Ha' & Hb). exists (a ++ a'), b.
  rewrite app_assoc, forallb_app, Ha, Ha'. auto.
Qed.

Lemma in_phases_skip ks ps evs : in_phases ps evs -> in_phases (ks :: ps) evs.
Proof. intros H. exists [], evs. auto. Qed.

Lemma phased_bind ks ps {A B} (m : M A) (k : A -> M B) :
  emits_only ks m -> (forall a, phased (ks :: ps) (k a)) ->
  phased (ks :: ps) (bind m k).
Proof.
  intros Hm Hk s. destruct (Hm s) as (e1 & E1 & Q1). unfold bind.
  destruct (m s) as [[a|c|] s']; cbn [snd] in *.
  - destruct (Hk a s') as (evs & E & P). exists (e1 ++ evs).
    rewrite E, E1, app_assoc. split; [reflexivity|]. now apply in_phases_head.
  - exists e1. split; [exact E1|]. rewrite <- (app_nil_r e1).
    apply in_phases_head; [exact Q1 | apply in_phases_nil].
  - exists e1. split; [exact E1|]. rewrite <- (app_nil_r e1).
    apply in_phases_head; [exact Q1 | apply in_phases_nil].
Qed.

Lemma phased_skip ks ps {A} (m : M A) : phased ps m -> phased (ks :: ps) m.
Proof.
  intros Hm s. destruct (Hm s) as (evs & E & P). exists evs.
  split; [exact E | now apply in_phases_skip].
Qed.

Lemma phased_first ks ps {A} (m : M A) : emits_only ks m -> phased (ks :: ps) m.
Proof.
  intros Hm s. destruct (Hm s) as (evs & E & Q). exists evs.
  split; [exact E|]. rewrite <- (app_nil_r evs).
  apply in_phases_head; [exact Q | apply in_phases_nil].
Qed.

(* what each function called by main may add to the trace *)
Lemma parse_options_emits ks opts :
  kinds_within [KPrintf] ks = true ->
  forall o, steps (appends (has_kind ks)) (parse_options opts o).
Proof.
  intros Hk.
  assert (Hp : steps (appends (has_kind ks)) print_help).
  { apply (emits_only_within [KPrintf] ks _ Hk). unfold emits_only, print_help.
    auto 10 with steps. }
  induction opts as [|[opt optarg] rest IH]; intros o; cbn [parse_options].
  - auto with steps.
  - repeat apply steps_if; auto 10 with steps.
Qed.

Lemma tun_open_emits ks opens :
  kinds_within [KOpen] ks = true -> steps (appends (has_kind ks)) (tun_open opens).
Proof.
  intros Hk. apply (emits_only_within [KOpen] ks _ Hk).
  unfold emits_only, tun_open. cbv zeta. auto 10 with steps.
Qed.

Lemma open_raw_socket_emits ks tunnel so opt :
  kinds_within [KLog; KSocket; KSetsockopt] ks = true ->
  steps (appends (has_kind ks)) (open_raw_socket tunnel so opt).
Proof.
  intros Hk. apply (emits_only_within [KLog; KSocket; KSetsockopt] ks _ Hk).
  unfold emits_only, open_raw_socket. cbv zeta. auto 20 with steps.
Qed.

Lemma drop_root_emits {hdr : ClatdHeaders} ks st :
  kinds_within [KLog; KPrivilege] ks = true ->
  steps (appends (has_kind ks)) (drop_root st).
Proof.
  intros Hk. apply (emits_only_within [KLog; KPrivilege] ks _ Hk).
  unfold emits_only, drop_root. cbv zeta. auto 30 with steps.
Qed.

Lemma configure_interface_emits {hdr : ClatdHeaders}
    ks uplink_interface plat_prefix tunnel net_id inp :
  kinds_within [KLog; KTunSetIff; KClose; KAddress; KIfUp; KRoute] ks = true ->
  steps (appends (has_kind ks))
    (configure_interface uplink_interface plat_prefix tunnel net_id inp).
Proof.
  intros Hk.
  apply (emits_only_within [KLog; KTunSetIff; KClose; KAddress; KIfUp; KRoute] ks _ Hk).
  unfold emits_only, configure_interface, tun_alloc, configure_tun_ip,
    configure_tun_ipv6.
  cbv zeta. auto 60 with steps.
Qed.

Lemma set_forwarding_emits ks fd setting w :
  kinds_within [KLog; KWrite] ks = true ->
  steps (appends (has_kind ks)) (set_forwarding fd setting w).
Proof.
  intros Hk. apply (emits_only_within [KLog; KWrite] ks _ Hk).
  unfold emits_only, set_forwarding. auto 10 with steps.
Qed.

Lemma event_loop_emits {hdr : ClatdHeaders} ks tunnel time0 script :
  kinds_within [KLog; KTranslate; KRoute] ks = true ->
  steps (appends (has_kind ks)) (event_loop tunnel time0 script).
Proof.
  intros Hk. apply (emits_only_within [KLog; KTranslate; KRoute] ks _ Hk).
  unfold event_loop. apply event_loop_from_emits.
Qed.

Create HintDb footprint.

#[local] Hint Resolve parse_options_emits tun_open_emits open_raw_socket_emits
  drop_root_emits configure_interface_emits set_forwarding_emits
  event_loop_emits : footprint.

Ltac in_phase :=
  apply phased_bind;
  [unfold emits_only; solve [auto 10 with steps footprint] | intros ?].

(** X13: what main does to the outside world comes in three stretches, in
    this order, whatever the inputs and wherever the run ends.  First, still
    as root: printing, logging, opening descriptors and setting up the raw
    socket, nothing else.  Then the privilege drop and the set-up of the
    devices: no descriptor or socket is opened any more, and nothing is
    written or handed to the translator yet.  Last, from the write that
    enables forwarding on: forwarding writes, the signal handler, hand-offs
    to the translator, route changes and logging; no privilege, address or
    device call. *)
Theorem main_phases {hdr : ClatdHeaders} b s :
  exists as_root set_up forwarding,
    trace (snd (main b s)) = trace s ++ as_root ++ set_up ++ forwarding
    /\ forallb (has_kind [KPrintf; KLog; KOpen; KSocket; KSetsockopt]) as_root = true
    /\ forallb (has_kind [KLog; KPrivilege; KUnsetenv; KTunSetIff; KClose;
                           KAddress; KIfUp; KRoute]) set_up = true
    /\ forallb (has_kind [KLog; KWrite; KSignal; KTranslate; KRoute]) forwarding
       = true.
Proof.
  assert (H : phased [[KPrintf; KLog; KOpen; KSocket; KSetsockopt];
                      [KLog; KPrivilege; KUnsetenv; KTunSetIff; KClose;
                       KAddress; KIfUp; KRoute];
                      [KLog; KWrite; KSignal; KTranslate; KRoute]] (main b)).
  { unfold main. cbv zeta.
    in_phase.
    destruct (opt_uplink_interface a) as [uplink_interface|].
    2: { apply phased_first. unfold emits_only. auto 10 with steps. }
    repeat in_phase.
    (* run under a regular user *)
    apply phased_skip.
    repeat in_phase.
    (* forwarding is enabled *)
    apply phased_skip, phased_first. unfold emits_only.
    auto 20 with steps footprint. }
  destruct (H s) as (evs & E & a & r1 & -> & Qa & c & r2 & -> & Qc & d & r3 & -> & Qd & ->).
  exists a, c, d. rewrite app_nil_r in E. auto.
Qed.

(** ** The route follows the configured subnet *)

Lemma run_routes_app ops1 : forall cur ops2,
  run_routes cur (ops1 ++ ops2) =
    match run_routes cur ops1 with
    | Some cur' => run_routes cur' ops2
    | None => None
    end.
Proof.
  induction ops1 as [|op ops1 IH]; intros cur ops2; cbn [app run_routes];
    [reflexivity|].
  destruct (route_step cur op); [apply IH | reflexivity].
Qed.

Lemma IN6_ARE_ADDR_EQUAL_refl a : IN6_ARE_ADDR_EQUAL a a = true.
Proof. now apply IN6_ARE_ADDR_EQUAL_eq. Qed.

Lemma preorder_route_kept : preorder route_kept.
Proof.
  split.
  - intros s. exists []. now rewrite app_nil_r.
  - intros s1 s2 s3 (e1 & E1 & Q1) (e2 & E2 & Q2). exists (e1 ++ e2).
    rewrite E2, E1, app_assoc, route_ops_app, run_routes_app, Q1. auto.
Qed.

Lemma route_kept_emit e : route_of e = None -> steps route_kept (emit e).
Proof.
  intros He s. exists [e]. split; [reflexivity|]. cbn [route_ops]. now rewrite He.
Qed.

Lemma route_kept_logmsg p f : steps route_kept (logmsg p f).
Proof. now apply route_kept_emit. Qed.

Lemma route_kept_set_running v : steps route_kept (set_running v).
Proof. intros s. exists []. cbn. now rewrite app_nil_r. Qed.

Create HintDb routes.

#[local] Hint Resolve steps_ret steps_exit steps_get_config steps_get_forwarding_fd
  steps_bind steps_if steps_when steps_option steps_for_each
  preorder_route_kept route_kept_emit route_kept_logmsg route_kept_set_running
  : routes.

#[local] Hint Extern 1 (_ = None) => reflexivity : routes.

Lemma read_packet_route_kept active_fd tunnel read :
  steps route_kept (read_packet active_fd tunnel read).
Proof. unfold read_packet, translate_packet. cbv zeta. auto 20 with routes. Qed.

(* the poll of the uplink replaces the route by the one of the new subnet *)
Lemma interface_poll_route_kept {hdr : ClatdHeaders} tunnel up :
  steps route_kept (interface_poll tunnel up).
Proof.
  intros s. unfold interface_poll.
  destruct (up_interface_ip up) as [ip6|]; [|now apply route_kept_logmsg].
  rewrite bind_get_config.
  destruct (IN6_ARE_ADDR_EQUAL _ _); cbn [negb];
    [apply (proj1 preorder_route_kept)|].
  unfold deconfigure_tun_ipv6, configure_tun_ipv6, when.
  repeat m_step.
  destruct (up_delete_status up <? 0); repeat m_step;
    cbn [Global_Clatd_Config with_events set_ipv6_local_subnet ipv6_local_subnet];
    destruct (up_create_status up <? 0); repeat m_step; m_done;
    (eexists; split; [reflexivity|]);
    cbn [route_ops route_of run_routes route_step];
    rewrite IN6_ARE_ADDR_EQUAL_refl; reflexivity.
Qed.

Lemma loop_body_route_kept {hdr : ClatdHeaders} tunnel last it :
  steps route_kept (loop_body tunnel last it).
Proof.
  pose proof (fun fd => read_packet_route_kept fd tunnel (it_read it)) as HR.
  pose proof (interface_poll_route_kept tunnel (it_uplink it)) as HP.
  unfold loop_body, stop_loop. cbv zeta. auto 30 with routes.
Qed.

Lemma event_loop_from_route_kept {hdr : ClatdHeaders} tunnel script :
  forall last, steps route_kept (event_loop_from tunnel last script).
Proof.
  pose proof preorder_route_kept as HR.
  induction script as [|it rest IH]; intros last s; cbn [event_loop_from];
    destruct (running s =? 0); try apply HR.
  apply (steps_bind _ _ _ HR (loop_body_route_kept tunnel last it)).
  intros l. apply IH.
Qed.

(** X14: the route calls of the dispatch loop keep the /128 route in step
    with the configured subnet.  Over any run of the loop, replaying the
    route calls it makes from the route of the subnet configured on entry
    never deletes a route other than the installed one and never creates a
    second one, and ends with the route of the subnet configured at the end
    of the run, also when a delete fails or when the process exits on a
    failed create. *)
Theorem event_loop_route_follows_subnet {hdr : ClatdHeaders} tunnel time0 script s :
  exists evs,
    trace (snd (event_loop tunnel time0 script s)) = trace s ++ evs
    /\ run_routes (Some (ipv6_local_subnet (Global_Clatd_Config s))) (route_ops evs)
       = Some (Some (ipv6_local_subnet
                       (Global_Clatd_Config (snd (event_loop tunnel time0 script s))))).
Proof. unfold event_loop. apply event_loop_from_route_kept. Qed.

Lemma installs_route_exit {A} : installs_route (@exit A 1).
Proof. intros s. exists []. cbn. rewrite app_nil_r. auto. Qed.

(* before the route is made: a step that makes no route call *)
Lemma installs_route_bind ks {A B} (m : M A) (k : A -> M B) :
  kinds_apart ks [KRoute] = true ->
  emits_only ks m -> ends returns_or_exits_1 m ->
  (forall a, installs_route (k a)) ->
  installs_route (bind m k).
Proof.
  intros Hap Hm He Hk s. destruct (Hm s) as (e1 & E1 & Q1).
  pose proof (route_ops_without_routes ks e1 Hap Q1) as R1.
  specialize (He s). unfold bind, returns_or_exits_1 in *.
  destruct (m s) as [[a|c|] s']; cbn [fst snd ending_of] in *.
  - destruct (Hk a s') as (e2 & E2 & H2). exists (e1 ++ e2).
    rewrite E2, E1, app_assoc, route_ops_app, R1. cbn [app].
    split; [reflexivity | exact H2].
  - exists e1. split; [exact E1|]. left. split; [exact R1|].
    destruct He as [He|He]; [discriminate He | now injection He as ->].
  - destruct He as [He|He]; discriminate He.
Qed.

(* after the route is made: steps that keep it *)
Lemma installs_route_then {A B} (m : M A) (k : A -> M B) :
  installs_route m -> (forall a, steps route_kept (k a)) ->
  installs_route (bind m k).
Proof.
  intros Hm Hk s. destruct (Hm s) as (e1 & E1 & H1). unfold bind.
  destruct (m s) as [[a|c|] s']; cbn [fst snd] in *.
  - destruct H1 as [[_ H1]|H1]; [discriminate H1|].
    destruct (Hk a s') as (e2 & E2 & H2). exists (e1 ++ e2).
    rewrite E2, E1, app_assoc, route_ops_app, run_routes_app, H1.
    split; [reflexivity | right; exact H2].
  - exists e1. split; [exact E1|].
    destruct H1 as [[R1 H1]|H1]; [left | now right].
    split; [exact R1|]. now injection H1 as ->.
  - exists e1. split; [exact E1|].
    destruct H1 as [[_ H1]|H1]; [discriminate H1 | now right].
Qed.

Lemma configure_tun_ipv6_installs_route tunnel status :
  installs_route (configure_tun_ipv6 tunnel status).
Proof.
  intros s. unfold configure_tun_ipv6. repeat m_step.
  destruct (status <? 0); repeat m_step; m_done;
    (eexists; split; [reflexivity|]); right; reflexivity.
Qed.

Ltac before_route ks :=
  lazymatch goal with
  | |- installs_route (bind _ _) =>
      apply (installs_route_bind ks);
      [ reflexivity
      | unfold emits_only; solve [auto 10 with steps footprint]
      | solve [auto 10 with exits]
      | intros ? ]
  end.

Lemma configure_tun_ip_installs_route tunnel st :
  installs_route (configure_tun_ip tunnel st).
Proof.
  unfold configure_tun_ip.
  repeat before_route [KLog; KAddress; KIfUp].
  apply configure_tun_ipv6_installs_route.
Qed.

Lemma configure_interface_installs_route {hdr : ClatdHeaders}
    uplink_interface plat_prefix tunnel net_id inp :
  installs_route (configure_interface uplink_interface plat_prefix tunnel net_id inp).
Proof.
  unfold configure_interface, tun_alloc. cbv zeta.
  repeat before_route [KLog; KTunSetIff; KClose].
  apply installs_route_then; [apply configure_tun_ip_installs_route|].
  intros _. auto with routes.
Qed.

Lemma set_forwarding_route_kept fd setting w :
  steps route_kept (set_forwarding fd setting w).
Proof. unfold set_forwarding. auto 10 with routes. Qed.

Lemma event_loop_route_kept {hdr : ClatdHeaders} tunnel time0 script :
  steps route_kept (event_loop tunnel time0 script).
Proof. unfold event_loop. apply event_loop_from_route_kept. Qed.

#[local] Hint Resolve set_forwarding_route_kept event_loop_route_kept : routes.

(** X15: the route calls of a whole run of main fit together.  Either main
    exits with status 1 before it has made any route call, or replaying its
    route calls from an empty table succeeds (the first call creates a route,
    every delete removes the installed route and is followed by one create)
    and leaves the /128 route of the subnet that is configured when main
    ends.  In particular main never returns without that route. *)
Theorem main_route_follows_subnet {hdr : ClatdHeaders} b s :
  exists evs,
    trace (snd (main b s)) = trace s ++ evs
    /\ ((route_ops evs = [] /\ fst (main b s) = Exited 1)
        \/ run_routes None (route_ops evs)
           = Some (Some (ipv6_local_subnet (Global_Clatd_Config (snd (main b s)))))).
Proof.
  revert s. change (installs_route (main b)).
  unfold main. cbv zeta.
  before_route [KPrintf].
  destruct (opt_uplink_interface a) as [uplink_interface|].
  2: { repeat before_route [KPrintf; KLog]. apply installs_route_exit. }
  repeat before_route
    [KPrintf; KLog; KOpen; KSocket; KSetsockopt; KPrivilege; KUnsetenv].
  apply installs_route_then; [apply configure_interface_installs_route|].
  intros tunnel. auto 20 with routes.
Qed.

(** ** The zero-length read *)













(** The sample run in full: the first device is gone, the frame waiting on
    the second is still handed to the translator, and the frame of the pass
    after it is not. *)
Example event_loop_removed_device_run :
  looped [it_frame6; it_removed; it_frame4; it_idle] =
    (Done tt,
     mk_proc 5 0 sample_config
       [EvTranslate 4 false [x60; x00; x00; x00] 4;
        EvLog ANDROID_LOG_WARN "read_packet/tun interface removed";
        EvTranslate 6 true [x45; x00; x00; x14] 4]).
Proof. reflexivity. Qed.
